(** * telegram2discord/setup.ts: startup sequencing of the Telegram side

    A shallow embedding of [clearOldMessages] and [setup].  The platform
    clients, the settings object and the logger are collaborators: every
    call the code makes on one of them is recorded as an [Event], and what
    a collaborator answers is given by an environment ([Telegram],
    [Runtime]), so that a statement quantified over environments covers
    every execution.

    Promises are modelled by the state they are observed in ([outcome]);
    [Pending] stands for a promise that has not settled, so a run with a
    pending answer is also a run observed before that answer arrives.  The
    trace of a run lists the calls in the order the event loop makes them:
    the synchronous body of [setup], the fetches of the drain, the ready
    callback, [startPolling] (a reaction that runs as soon as the callback
    returns), and then the reactions of the promise chains the callback
    left detached, which need an answer from the network first.  The order
    of the detached chains among themselves is not fixed by the code; the
    trace lists them in the order they were started and no statement
    depends on it.

    JavaScript numbers holding Telegram ids are integers far below 2^53 and
    are modelled as [Z]. *)

From Stdlib Require Import ZArith List String Bool Lia DecimalString.
From Stdlib Require Import Sorted.
Import ListNotations.

Open Scope string_scope.
Open Scope list_scope.

Set Implicit Arguments.

(** ** Values exchanged with the collaborators *)

(** A JavaScript error value: a runtime [TypeError] or an [Error] built with
    [new Error(msg)] (also used for the reason of a rejected API promise). *)
Inductive Error : Type :=
| TypeError (message : string)
| Err (message : string).

(** The state a promise is observed in. *)
Inductive outcome (A : Type) : Type :=
| Fulfilled (value : A)
| Rejected (reason : Error)
| Pending.

Arguments Fulfilled {A} value.
Arguments Rejected {A} reason.
Arguments Pending {A}.

(** A promise that has settled: one answer of the Telegram API. *)
Inductive settled (A : Type) : Type :=
| Resolves (value : A)
| Rejects (reason : Error).

Arguments Resolves {A} value.
Arguments Rejects {A} reason.

(** A Telegram update.  [update_id] is the only field [setup.ts] reads;
    [updateTypes] and [commandName] are what the dispatcher filters on. *)
Record Update : Type := mkUpdate {
  update_id : Z;
  updateTypes : list string;
  commandName : option string
}.

(** The bot's own identity, as [getMe] returns it. *)
Record Me : Type := mkMe {
  id : Z;
  username : string
}.

Record BotCommand : Type := mkBotCommand {
  command : string;
  description : string
}.

Record ChatAdministratorRights : Type := mkRights {
  can_manage_chat : bool;
  can_delete_messages : bool;
  can_change_info : bool;
  can_invite_users : bool;
  can_post_messages : bool;
  can_edit_messages : bool;
  can_pin_messages : bool;
  can_manage_topics : bool;
  is_anonymous : bool;
  can_manage_video_chats : bool;
  can_restrict_members : bool;
  can_promote_members : bool
}.

(** The middlewares and endwares [setup.ts] imports, by name.
    [removeBridgesIgnoringCommands] is a member of [middlewares] that the
    file mentions on line 183. *)
Inductive Handler : Type :=
| chatinfo | threadinfo | channelChatInfo
| addTediCrossObj | addMessageObj | addMessageId | addBridgesToContext
| informThisIsPrivateBot | removeD2TBridges | removeBridgesIgnoringCommands
| removeBridgesIgnoringJoinMessages | removeBridgesIgnoringLeaveMessages
| newChatMembers | leftChatMember
| addFromObj | addReplyObj | addForwardFrom | addTextObj | addFileObj
| addFileLink | addPreparedObj
| handleEdits | relayMessage.

(** An argument handed to the logger. *)
Inductive LogArg : Type :=
| LogText (s : string)
| LogCommands (commands : list BotCommand).

(** ** Events: the calls the code makes, in program order *)
Inductive Event : Type :=
| SettingsOn (eventName : string)
| GetMe
| GetUpdates (timeout limit offset : Z) (allowedUpdates : list string)
| Sleep (ms : Z)
| LoggerInfo (args : list LogArg)
| LoggerError (err : Error)
| SetMyCommands (commands : list BotCommand) (scopeType : string)
| SetTimeout (ms : Z)
| GetMyCommands
| SetMyDefaultAdministratorRights (rights : ChatAdministratorRights) (forChannels : bool)
| TgCommand (name : string) (h : Handler)
| TgUse (h : Handler)
| TgOn (types : list string) (h : Handler)
| TgCatch
| StartPolling
| UnhandledRejection (err : Error).

Definition Trace : Type := list Event.

(** ** Ramda helpers used by [clearOldMessages] *)

(** [R.last]: the last element, [undefined] ([None]) on an empty array. *)
Definition R_last {A : Type} (xs : list A) : option A :=
  match xs with
  | [] => None
  | x :: rest => Some (last rest x)
  end.

Definition R_add (a b : Z) : Z := (a + b)%Z.

Arguments R_add : simpl never.

(** ** clearOldMessages (setup.ts, lines 34-53) *)

Definition timeout : Z := 0%Z.
Definition limit : Z := 100%Z.

(** [clearOldMessages tgBot offset].  The bot is represented by the answers
    its [getUpdates] will give from now on, one per call; when the list is
    used up the next answer has not arrived and the promise is [Pending].
    The result is the calls issued and the state of the returned promise.

    The match on [updates] is [R.ifElse(R.isEmpty, R.always(undefined), ...)];
    in its second branch [last us u] is [R.last] of the non-empty array
    [u :: us], read by [R.prop("update_id")] and passed to [R.add(1)]. *)
Fixpoint clearOldMessages (answers : list (settled (list Update))) (offset : Z)
  : Trace * outcome unit :=
  let call := GetUpdates timeout limit offset [] in
  match answers with
  | [] => ([call], Pending)
  | Rejects reason :: _ => ([call], Rejected reason)
  | Resolves updates :: later =>
      match updates with
      | [] => ([call], Fulfilled tt)
      | u :: us =>
          let newOffset := R_add 1 (update_id (last us u)) in
          let (calls, result) := clearOldMessages later newOffset in
          (call :: calls, result)
      end
  end.

(** The default value of the [offset] parameter. *)
Definition defaultOffset : Z := (-1)%Z.

(** Offsets of the [getUpdates] calls of a trace, in order. *)
Fixpoint fetchOffsets (t : Trace) : list Z :=
  match t with
  | [] => []
  | GetUpdates _ _ offset _ :: rest => offset :: fetchOffsets rest
  | _ :: rest => fetchOffsets rest
  end.

Definition isFetch (e : Event) : bool :=
  match e with
  | GetUpdates _ _ _ _ => true
  | _ => false
  end.

(** The offset that follows a batch: last item's id plus one. *)
Definition offsetAfter (batch : list Update) : option Z :=
  option_map (fun u => R_add 1 (update_id u)) (R_last batch).

Definition nonEmpty {A : Type} (xs : list A) : Prop := xs <> [].

(** ** The dispatcher's middleware stack *)

(** When a registered handler is run: [tgBot.command(name, h)],
    [tgBot.use(h)] and [tgBot.on(types, h)]. *)
Inductive Trigger : Type :=
| OnCommand (name : string)
| OnEveryUpdate
| OnUpdateTypes (types : list string).

Record Registration : Type := mkRegistration {
  trigger : Trigger;
  handler : Handler
}.

Definition Handler_eq_dec : forall a b : Handler, {a = b} + {a <> b}.
Proof. decide equality. Defined.

(** The registrations that follow the first one of handler [h]. *)
Fixpoint afterStage (h : Handler) (stack : list Registration) : list Registration :=
  match stack with
  | [] => []
  | r :: rest => if Handler_eq_dec (handler r) h then rest else afterStage h rest
  end.

(** The closure handed to [settings.on("bridgeUpdate", ...)] on lines 84-87. *)
Inductive Listener : Type :=
| AssignBridgeMap.

(** The closure handed to [tgBot.catch] on lines 201-207. *)
Inductive ErrorHandler : Type :=
| LogTheError.

(** The promise chains the ready callback starts and does not return:
    [setMyCommands(...).then(...)] and the two
    [setMyDefaultAdministratorRights(...).then()]. *)
Inductive Detached : Type :=
| AfterSetMyCommands
| AfterSetMyDefaultAdministratorRights (forChannels : bool).

(** ** The environment *)

(** What the Telegram API answers to each call of [setup.ts]. *)
Record Telegram : Type := mkTelegram {
  getMe_answer : outcome Me;
  getUpdates_answers : list (settled (list Update));
  setMyCommands_answer : outcome unit;
  getMyCommands_answer : outcome (list BotCommand);
  setMyDefaultAdministratorRights_answer : bool -> outcome unit;
  startPolling_answer : outcome unit
}.

(** Timers and scheduling: the state of the promise [sleep(1000)] returns,
    whether the 5000 ms timer has fired, and which of the two promises
    given to [Promise.all] settles first (it decides the reason when both
    reject). *)
Record Runtime : Type := mkRuntime {
  sleep_answer : outcome unit;
  timerFired : bool;
  getMeSettlesFirst : bool
}.

(** The one setting [setup.ts] reads: [settings.telegram.skipOldMessages]. *)
Record Settings : Type := mkSettings {
  skipOldMessages : bool
}.

Definition isFulfilled {A : Type} (p : outcome A) : bool :=
  match p with
  | Fulfilled _ => true
  | _ => false
  end.

(** [Promise.all([a, b])]: fulfilled with both values once both are
    fulfilled, rejected as soon as one rejects. *)
Definition Promise_all {A B : Type} (firstSettlesFirst : bool)
  (a : outcome A) (b : outcome B) : outcome (A * B) :=
  match a, b with
  | Fulfilled x, Fulfilled y => Fulfilled (x, y)
  | Rejected e1, Rejected e2 => Rejected (if firstSettlesFirst then e1 else e2)
  | Rejected e, _ => Rejected e
  | _, Rejected e => Rejected e
  | _, _ => Pending
  end.

Definition showZ (z : Z) : string := NilEmpty.string_of_int (Z.to_int z).
Definition showNat (n : nat) : string := NilEmpty.string_of_uint (Nat.to_uint n).

(** Lines 100-109. *)
Definition myCommands : list BotCommand :=
  [ mkBotCommand "chatinfo" "Get info about the chat";
    mkBotCommand "threadinfo" "Get info about the thread" ].

(** Lines 124-137. *)
Definition defaultPermissions : ChatAdministratorRights :=
  {| can_manage_chat := true;
     can_delete_messages := true;
     can_change_info := true;
     can_invite_users := true;
     can_post_messages := true;
     can_edit_messages := true;
     can_pin_messages := true;
     can_manage_topics := true;
     is_anonymous := false;
     can_manage_video_chats := false;
     can_restrict_members := false;
     can_promote_members := false |}.

(** Lines 115-120: the reaction to the second fetch of the commands.  The
    callback logs what came back and throws if it is fewer than two
    commands; nothing handles the rejection that results, nor one of
    [getMyCommands] itself. *)
Definition commandCheck (refetched : outcome (list BotCommand)) : Trace :=
  match refetched with
  | Fulfilled commands =>
      LoggerInfo [LogText "Telegram commands:"; LogCommands commands] ::
      (if (List.length commands <? 2)%nat then
         [UnhandledRejection
            (Err (String.append "Telegram: Expected 2 commands, got "
                                (showNat (List.length commands))))]
       else [])
  | Rejected reason => [UnhandledRejection reason]
  | Pending => []
  end.

(** Lines 112-122: what follows the call of [setMyCommands].  When it
    resolves, a 5000 ms timer is set; when the timer fires the commands are
    fetched again. *)
Definition verifyCommands (tgBot : Telegram) (rt : Runtime) : Trace :=
  match setMyCommands_answer tgBot with
  | Fulfilled _ =>
      SetTimeout 5000 ::
      (if timerFired rt then
         GetMyCommands :: commandCheck (getMyCommands_answer tgBot)
       else [])
  | Rejected reason => [UnhandledRejection reason]
  | Pending => []
  end.

(** Lines 140-153: [.then()] with no handler passes a rejection on to
    nobody. *)
Definition afterSetRights (tgBot : Telegram) (forChannels : bool) : Trace :=
  match setMyDefaultAdministratorRights_answer tgBot forChannels with
  | Rejected reason => [UnhandledRejection reason]
  | _ => []
  end.

Definition runDetached (tgBot : Telegram) (rt : Runtime) (d : Detached) : Trace :=
  match d with
  | AfterSetMyCommands => verifyCommands tgBot rt
  | AfterSetMyDefaultAdministratorRights forChannels => afterSetRights tgBot forChannels
  end.

(** Registrations made by a trace, in order. *)
Fixpoint installs (t : Trace) : list Registration :=
  match t with
  | [] => []
  | TgCommand name h :: rest => mkRegistration (OnCommand name) h :: installs rest
  | TgUse h :: rest => mkRegistration OnEveryUpdate h :: installs rest
  | TgOn types h :: rest => mkRegistration (OnUpdateTypes types) h :: installs rest
  | _ :: rest => installs rest
  end.

Definition isStartPolling (e : Event) : bool :=
  match e with
  | StartPolling => true
  | _ => false
  end.

Definition isRegistration (e : Event) : bool :=
  match e with
  | SetMyCommands _ _ | SetMyDefaultAdministratorRights _ _ => true
  | _ => false
  end.

Definition isLoggerCall (e : Event) : bool :=
  match e with
  | LoggerInfo _ | LoggerError _ => true
  | _ => false
  end.

(** Calls made before the ready callback. *)
Definition isStartupCall (e : Event) : bool :=
  match e with
  | SettingsOn _ | GetMe | GetUpdates _ _ _ _ | Sleep _ => true
  | _ => false
  end.

(** Calls and reports of the detached chains. *)
Definition isDetachedCall (e : Event) : bool :=
  match e with
  | SetTimeout _ | GetMyCommands | LoggerInfo _ | UnhandledRejection _ => true
  | _ => false
  end.

Definition isSleep (e : Event) : bool :=
  match e with
  | Sleep _ => true
  | _ => false
  end.

(** The same API with another answer to [getMyCommands]. *)
Definition withGetMyCommands (refetched : outcome (list BotCommand)) (tgBot : Telegram)
  : Telegram :=
  mkTelegram (getMe_answer tgBot) (getUpdates_answers tgBot) (setMyCommands_answer tgBot)
             refetched (setMyDefaultAdministratorRights_answer tgBot)
             (startPolling_answer tgBot).

(** The part of a trace after the first [startPolling] call. *)
Fixpoint afterPolling (t : Trace) : Trace :=
  match t with
  | [] => []
  | StartPolling :: rest => rest
  | _ :: rest => afterPolling rest
  end.

(** The part of a trace up to and including the first [startPolling] call
    (the whole trace when there is none). *)
Fixpoint untilPolling (t : Trace) : Trace :=
  match t with
  | [] => []
  | StartPolling :: _ => [StartPolling]
  | e :: rest => e :: untilPolling rest
  end.

(** ** Measures of a backlog and of a trace *)

(** The ids of a backlog, in the order its batches deliver them. *)
Definition backlogIds (batches : list (list Update)) : list Z :=
  map update_id (List.concat batches).

(** The number of non-empty batches at the head of a list of answers. *)
Fixpoint leadingNonEmpty (answers : list (settled (list Update))) : nat :=
  match answers with
  | Resolves (_ :: _) :: later => S (leadingNonEmpty later)
  | _ => 0
  end.

Definition isLoggerError (e : Event) : bool :=
  match e with
  | LoggerError _ => true
  | _ => false
  end.

(** The calls of the command check: the timer and the second fetch. *)
Definition isVerificationCall (e : Event) : bool :=
  match e with
  | SetTimeout _ | GetMyCommands => true
  | _ => false
  end.

(** The same API with other answers to [setMyCommands] and
    [setMyDefaultAdministratorRights]. *)
Definition withRegistration (commandsSet : outcome unit) (rightsSet : bool -> outcome unit)
  (tgBot : Telegram) : Telegram :=
  mkTelegram (getMe_answer tgBot) (getUpdates_answers tgBot) commandsSet
             (getMyCommands_answer tgBot) rightsSet (startPolling_answer tgBot).

(** ** Sample data for concrete runs *)

Definition sampleMe : Me := mkMe 7 "tedicross_bot".

(** A batch of [limit] updates with consecutive ids. *)
Definition fullBatch (firstId : Z) : list Update :=
  map (fun i => mkUpdate (firstId + Z.of_nat i) ["message"] None) (seq 0 100).

Definition sampleBacklog : list (settled (list Update)) :=
  [Resolves (fullBatch 1); Resolves (fullBatch 101); Resolves []].

Definition sampleTelegram (identity : outcome Me) (refetched : outcome (list BotCommand))
  : Telegram :=
  mkTelegram identity sampleBacklog (Fulfilled tt) refetched (fun _ => Fulfilled tt) Pending.

Definition sampleRuntime : Runtime := mkRuntime (Fulfilled tt) true true.

(** A text message, optionally a command. *)
Definition textMessage (updateId : Z) (cmd : option string) : Update :=
  mkUpdate updateId ["message"; "text"] cmd.

(** ** setup (setup.ts, lines 76-212) *)

Section Setup.

(** The collaborators [setup] only stores and passes on. *)
Context {BridgeMap DcBot MessageMap Logger Ctx : Type}.

(** The object assigned to [tgBot.context.TediCross] on lines 161-170. *)
Record TediCross : Type := mkTediCross {
  me : Me;
  bridgeMap : BridgeMap;
  dcBot : DcBot;
  settings : Settings;
  messageMap : MessageMap;
  logger : Logger;
  antiInfoSpamSet : list Z;
  groupIdMap : list (string * list Ctx)
}.

(** The mutable objects [setup] writes to: [tgBot.context.TediCross]
    ([None] while the property is undefined), the bot's middleware stack
    and error handler, and the listeners of the settings object. *)
Record World : Type := mkWorld {
  tgContext : option TediCross;
  tgMiddleware : list Registration;
  tgErrorHandler : option ErrorHandler;
  settingsListeners : list (string * Listener)
}.

(** A fresh bot and a settings object nobody listens to. *)
Definition freshWorld : World := mkWorld None [] None [].

(** *** A state-and-trace monad for the synchronous code *)

Definition M (A : Type) : Type := World -> A * World * Trace.

Definition ret {A : Type} (a : A) : M A := fun w => (a, w, []).

Definition bind {A B : Type} (m : M A) (k : A -> M B) : M B :=
  fun w =>
    let '(a, w1, t1) := m w in
    let '(b, w2, t2) := k a w1 in
    (b, w2, t1 ++ t2).

Local Notation "x <- m ;; k" := (bind m (fun x => k))
  (at level 61, m at next level, right associativity).
Local Notation "m ;; k" := (bind m (fun _ => k))
  (at level 61, right associativity).

Definition call (e : Event) : M unit := fun w => (tt, w, [e]).
Definition calls (t : Trace) : M unit := fun w => (tt, w, t).
Definition update (f : World -> World) : M unit := fun w => (tt, f w, []).

Definition resultOf {A : Type} (r : A * World * Trace) : A := fst (fst r).
Definition worldOf {A : Type} (r : A * World * Trace) : World := snd (fst r).
Definition traceOf {A : Type} (r : A * World * Trace) : Trace := snd r.

(** [p.then(onFulfilled)]: the callback runs only if [p] is fulfilled. *)
Definition then_ {A B : Type} (p : outcome A) (onFulfilled : A -> M (outcome B))
  : M (outcome B) :=
  match p with
  | Fulfilled a => onFulfilled a
  | Rejected reason => ret (Rejected reason)
  | Pending => ret Pending
  end.

(** *** The methods called on the collaborators *)

Definition settings_on (eventName : string) (l : Listener) : M unit :=
  call (SettingsOn eventName) ;;
  update (fun w => mkWorld (tgContext w) (tgMiddleware w) (tgErrorHandler w)
                           (settingsListeners w ++ [(eventName, l)])).

Definition telegram_getMe (tgBot : Telegram) : M (outcome Me) :=
  call GetMe ;; ret (getMe_answer tgBot).

Definition sleep (rt : Runtime) (ms : Z) : M (outcome unit) :=
  call (Sleep ms) ;; ret (sleep_answer rt).

Definition telegram_startPolling (tgBot : Telegram) : M (outcome unit) :=
  call StartPolling ;; ret (startPolling_answer tgBot).

Definition install (r : Registration) : World -> World :=
  fun w => mkWorld (tgContext w) (tgMiddleware w ++ [r]) (tgErrorHandler w)
                   (settingsListeners w).

Definition tgBot_command (name : string) (h : Handler) : M unit :=
  call (TgCommand name h) ;; update (install (mkRegistration (OnCommand name) h)).

Definition tgBot_use (h : Handler) : M unit :=
  call (TgUse h) ;; update (install (mkRegistration OnEveryUpdate h)).

Definition tgBot_on (types : list string) (h : Handler) : M unit :=
  call (TgOn types h) ;; update (install (mkRegistration (OnUpdateTypes types) h)).

Definition tgBot_catch (h : ErrorHandler) : M unit :=
  call TgCatch ;;
  update (fun w => mkWorld (tgContext w) (tgMiddleware w) (Some h) (settingsListeners w)).

(** [tgBot.context.TediCross = value]. *)
Definition assignContext (value : TediCross) : M unit :=
  update (fun w => mkWorld (Some value) (tgMiddleware w) (tgErrorHandler w)
                           (settingsListeners w)).

(** The second promise of [Promise.all], line 94. *)
Definition secondTask (tgBot : Telegram) (rt : Runtime) (settings : Settings)
  : M (outcome unit) :=
  if skipOldMessages settings then
    (fun w => let (t, r) := clearOldMessages (getUpdates_answers tgBot) defaultOffset in
              (r, w, t))
  else sleep rt 1000.

(** The callback of the first [.then], lines 96-208.  It returns the
    promise chains it has started and left detached. *)
Definition readyCallback (logger : Logger) (dcBot : DcBot) (messageMap : MessageMap)
  (bridgeMap : BridgeMap) (settings : Settings) (me : Me) : M (outcome (list Detached)) :=
  call (LoggerInfo [LogText (String.append "Telegram: "
                      (String.append (username me)
                        (String.append " (" (String.append (showZ (id me)) ")"))))]) ;;
  call (SetMyCommands myCommands "default") ;;
  call (SetMyDefaultAdministratorRights defaultPermissions false) ;;
  call (SetMyDefaultAdministratorRights defaultPermissions true) ;;
  let antiInfoSpamSet : list Z := [] in
  let groupIdMap : list (string * list Ctx) := [] in
  assignContext (mkTediCross me bridgeMap dcBot settings messageMap logger
                             antiInfoSpamSet groupIdMap) ;;
  tgBot_command "chatinfo" chatinfo ;;
  tgBot_command "threadinfo" threadinfo ;;
  tgBot_use channelChatInfo ;;
  tgBot_use addTediCrossObj ;;
  tgBot_use addMessageObj ;;
  tgBot_use addMessageId ;;
  tgBot_use addBridgesToContext ;;
  tgBot_use informThisIsPrivateBot ;;
  tgBot_use removeD2TBridges ;;
  (* line 183 is a comment: tgBot.command(middlewares.removeBridgesIgnoringCommands) *)
  tgBot_on ["new_chat_members"] removeBridgesIgnoringJoinMessages ;;
  tgBot_on ["left_chat_member"] removeBridgesIgnoringLeaveMessages ;;
  tgBot_on ["new_chat_members"] newChatMembers ;;
  tgBot_on ["left_chat_member"] leftChatMember ;;
  tgBot_use addFromObj ;;
  tgBot_use addReplyObj ;;
  tgBot_use addForwardFrom ;;
  tgBot_use addTextObj ;;
  tgBot_use addFileObj ;;
  tgBot_use addFileLink ;;
  tgBot_use addPreparedObj ;;
  tgBot_on ["edited_message"; "edited_channel_post"] handleEdits ;;
  tgBot_use relayMessage ;;
  tgBot_catch LogTheError ;;
  ret (Fulfilled [AfterSetMyCommands;
                  AfterSetMyDefaultAdministratorRights false;
                  AfterSetMyDefaultAdministratorRights true]).

(** The reactions of the detached chains; they run in later turns of the
    event loop, after the chain of [tgBot.ready] has called [startPolling]. *)
Definition detachedReactions (tgBot : Telegram) (rt : Runtime)
  (started : outcome (list Detached)) : Trace :=
  match started with
  | Fulfilled ds => flat_map (runDetached tgBot rt) ds
  | _ => []
  end.

(** [setup]; the value returned is the state of [tgBot.ready]. *)
Definition setup (rt : Runtime) (logger : Logger) (tgBot : Telegram) (dcBot : DcBot)
  (messageMap : MessageMap) (bridgeMap : BridgeMap) (settings : Settings)
  : M (outcome unit) :=
  settings_on "bridgeUpdate" AssignBridgeMap ;;
  identity <- telegram_getMe tgBot ;;
  second <- secondTask tgBot rt settings ;;
  started <- then_ (Promise_all (getMeSettlesFirst rt) identity second)
                   (fun both => readyCallback logger dcBot messageMap bridgeMap settings
                                              (fst both)) ;;
  ready <- then_ started (fun _ => telegram_startPolling tgBot) ;;
  calls (detachedReactions tgBot rt started) ;;
  ret ready.

(** Whether the first [.then] callback has run: both promises given to
    [Promise.all] are fulfilled. *)
Definition readyStepHasRun (rt : Runtime) (tgBot : Telegram) (settings : Settings) : bool :=
  isFulfilled (getMe_answer tgBot) &&
  isFulfilled (if skipOldMessages settings
               then snd (clearOldMessages (getUpdates_answers tgBot) defaultOffset)
               else sleep_answer rt).

(** *** The configuration-change listener (lines 84-87) *)

Definition setBridgeMap (newBridgeMap : BridgeMap) (tc : TediCross) : TediCross :=
  mkTediCross (me tc) newBridgeMap (dcBot tc) (settings tc) (messageMap tc) (logger tc)
              (antiInfoSpamSet tc) (groupIdMap tc).

(** [tgBot.context.TediCross.bridgeMap = newBridgeMap]: a write to a
    property of [undefined] throws a [TypeError]. *)
Definition runListener (l : Listener) (newBridgeMap : BridgeMap) (w : World)
  : Error + World :=
  match l with
  | AssignBridgeMap =>
      match tgContext w with
      | None =>
          inl (TypeError "Cannot set properties of undefined (setting 'bridgeMap')")
      | Some tc =>
          inr (mkWorld (Some (setBridgeMap newBridgeMap tc)) (tgMiddleware w)
                       (tgErrorHandler w) (settingsListeners w))
      end
  end.

(** [settings.emit(eventName, payload)]: the listeners of that event run in
    the order they were added; an exception of one leaves [emit]. *)
Fixpoint emitTo (ls : list (string * Listener)) (eventName : string)
  (payload : BridgeMap) (w : World) : Error + World :=
  match ls with
  | [] => inr w
  | (name, l) :: rest =>
      if String.eqb name eventName then
        match runListener l payload w with
        | inl err => inl err
        | inr w' => emitTo rest eventName payload w'
        end
      else emitTo rest eventName payload w
  end.

Definition settings_emit (eventName : string) (payload : BridgeMap) (w : World)
  : Error + World :=
  emitTo (settingsListeners w) eventName payload w.

(** The table the pipeline reads: [ctx.TediCross.bridgeMap]. *)
Definition pipelineBridgeMap (w : World) : option BridgeMap :=
  option_map bridgeMap (tgContext w).

(** *** The dispatcher *)

(** Modelled from the spec: the middlewares and endwares are not in the
    sources.  A stage enriches or filters the context and passes it on,
    ends the processing of the update, or throws. *)
Inductive StageResult : Type :=
| CallsNext (ctx : Ctx)
| Ends
| Throws (err : Error).

Inductive Process : Type :=
| Running
| Crashed (err : Error).

(** Modelled from the spec: which updates a registration applies to (a
    command by its name, a membership or edit handler by the update's
    types, [use] always). *)
Definition triggers (t : Trigger) (u : Update) : bool :=
  match t with
  | OnCommand name =>
      match commandName u with
      | Some c => String.eqb c name
      | None => false
      end
  | OnEveryUpdate => true
  | OnUpdateTypes types =>
      existsb (fun ty => existsb (String.eqb ty) (updateTypes u)) types
  end.

(** The body of the closure given to [tgBot.catch]: [logger.error(err)],
    and nothing else (the error is not thrown again). *)
Definition runErrorHandler (h : ErrorHandler) (err : Error) : Trace :=
  match h with
  | LogTheError => [LoggerError err]
  end.

Section Dispatch.

(** The behaviour of the imported middlewares and endwares, and the context
    the dispatcher builds for an update. *)
Variable stage : Handler -> Ctx -> StageResult.
Variable contextOf : Update -> Ctx.

(** Modelled from the spec: the stages run in the order they were
    installed, each on the context the previous one passed on; [Some err]
    when one throws. *)
Fixpoint runMiddleware (stack : list Registration) (u : Update) (ctx : Ctx)
  : option Error :=
  match stack with
  | [] => None
  | r :: rest =>
      if triggers (trigger r) u then
        match stage (handler r) ctx with
        | CallsNext ctx' => runMiddleware rest u ctx'
        | Ends => None
        | Throws err => Some err
        end
      else runMiddleware rest u ctx
  end.

(** Modelled from the spec: the dispatcher of the source platform client
    (its update handling and polling loop are not in the sources).  An
    uncaught error of a stage goes to the installed error handler and the
    next update is processed; with no handler installed nothing catches the
    error. *)
Definition handleUpdate (u : Update) : M Process :=
  fun w =>
    match runMiddleware (tgMiddleware w) u (contextOf u) with
    | None => (Running, w, [])
    | Some err =>
        match tgErrorHandler w with
        | Some h => (Running, w, runErrorHandler h err)
        | None => (Crashed err, w, [])
        end
    end.

(** Modelled from the spec: updates are handled one at a time, in order. *)
Fixpoint processUpdates (updates : list Update) : M Process :=
  match updates with
  | [] => ret Running
  | u :: rest =>
      p <- handleUpdate u ;;
      match p with
      | Running => processUpdates rest
      | Crashed err => ret (Crashed err)
      end
  end.

(** The errors the stages of a stack throw on a list of updates. *)
Definition thrownErrors (stack : list Registration) (updates : list Update) : list Error :=
  flat_map (fun u => match runMiddleware stack u (contextOf u) with
                     | Some err => [err]
                     | None => []
                     end) updates.

End Dispatch.

(** The stack the ready callback installs, as the file lists it. *)
Definition pipeline : list Registration :=
  [ mkRegistration (OnCommand "chatinfo") chatinfo;
    mkRegistration (OnCommand "threadinfo") threadinfo;
    mkRegistration OnEveryUpdate channelChatInfo;
    mkRegistration OnEveryUpdate addTediCrossObj;
    mkRegistration OnEveryUpdate addMessageObj;
    mkRegistration OnEveryUpdate addMessageId;
    mkRegistration OnEveryUpdate addBridgesToContext;
    mkRegistration OnEveryUpdate informThisIsPrivateBot;
    mkRegistration OnEveryUpdate removeD2TBridges;
    mkRegistration (OnUpdateTypes ["new_chat_members"]) removeBridgesIgnoringJoinMessages;
    mkRegistration (OnUpdateTypes ["left_chat_member"]) removeBridgesIgnoringLeaveMessages;
    mkRegistration (OnUpdateTypes ["new_chat_members"]) newChatMembers;
    mkRegistration (OnUpdateTypes ["left_chat_member"]) leftChatMember;
    mkRegistration OnEveryUpdate addFromObj;
    mkRegistration OnEveryUpdate addReplyObj;
    mkRegistration OnEveryUpdate addForwardFrom;
    mkRegistration OnEveryUpdate addTextObj;
    mkRegistration OnEveryUpdate addFileObj;
    mkRegistration OnEveryUpdate addFileLink;
    mkRegistration OnEveryUpdate addPreparedObj;
    mkRegistration (OnUpdateTypes ["edited_message"; "edited_channel_post"])
                   handleEdits;
    mkRegistration OnEveryUpdate relayMessage ].

(** *** Names for the parts of a run of [setup] *)

(** The call [tgBot.telegram.getUpdates(timeout, limit, offset, [])]. *)
Definition fetchCall (offset : Z) : Event := GetUpdates timeout limit offset [].

(** Calls and final state of the second promise of [Promise.all]. *)
Definition secondTrace (tgBot : Telegram) (settings : Settings) : Trace :=
  if skipOldMessages settings
  then fst (clearOldMessages (getUpdates_answers tgBot) defaultOffset)
  else [Sleep 1000].

Definition secondOutcome (tgBot : Telegram) (rt : Runtime) (settings : Settings)
  : outcome unit :=
  if skipOldMessages settings
  then snd (clearOldMessages (getUpdates_answers tgBot) defaultOffset)
  else sleep_answer rt.

(** The calls of the ready callback, in the order of lines 96-208. *)
Definition callbackTrace (me : Me) : Trace :=
  [ LoggerInfo [LogText (String.append "Telegram: "
                  (String.append (username me)
                    (String.append " (" (String.append (showZ (id me)) ")"))))];
    SetMyCommands myCommands "default";
    SetMyDefaultAdministratorRights defaultPermissions false;
    SetMyDefaultAdministratorRights defaultPermissions true;
    TgCommand "chatinfo" chatinfo;
    TgCommand "threadinfo" threadinfo;
    TgUse channelChatInfo;
    TgUse addTediCrossObj;
    TgUse addMessageObj;
    TgUse addMessageId;
    TgUse addBridgesToContext;
    TgUse informThisIsPrivateBot;
    TgUse removeD2TBridges;
    TgOn ["new_chat_members"] removeBridgesIgnoringJoinMessages;
    TgOn ["left_chat_member"] removeBridgesIgnoringLeaveMessages;
    TgOn ["new_chat_members"] newChatMembers;
    TgOn ["left_chat_member"] leftChatMember;
    TgUse addFromObj;
    TgUse addReplyObj;
    TgUse addForwardFrom;
    TgUse addTextObj;
    TgUse addFileObj;
    TgUse addFileLink;
    TgUse addPreparedObj;
    TgOn ["edited_message"; "edited_channel_post"] handleEdits;
    TgUse relayMessage;
    TgCatch ].

Definition detachedChains : list Detached :=
  [ AfterSetMyCommands;
    AfterSetMyDefaultAdministratorRights false;
    AfterSetMyDefaultAdministratorRights true ].

(** The world once the listener of line 84 is subscribed. *)
Definition subscribed (w : World) : World :=
  mkWorld (tgContext w) (tgMiddleware w) (tgErrorHandler w)
          (settingsListeners w ++ [("bridgeUpdate", AssignBridgeMap)]).

(** The world once the ready callback has run. *)
Definition installed (tc : TediCross) (w : World) : World :=
  mkWorld (Some tc) (tgMiddleware w ++ pipeline) (Some LogTheError) (settingsListeners w).

(** What precedes the ready callback in every run. *)
Definition startupTrace (tgBot : Telegram) (settings : Settings) : Trace :=
  SettingsOn "bridgeUpdate" :: GetMe :: secondTrace tgBot settings.

Unset Implicit Arguments.

(** * Backlog draining *)

Lemma clearOldMessages_fetches_only :
  forall answers offset,
    forallb isFetch (fst (clearOldMessages answers offset)) = true.
Proof.
  induction answers as [|[updates|reason] later IH]; intros offset; cbn; auto.
  destruct updates as [|u us]; cbn; auto.
  specialize (IH (R_add 1 (update_id (last us u)))).
  destruct (clearOldMessages later (R_add 1 (update_id (last us u)))); cbn in *; auto.
Qed.

Lemma clearOldMessages_first_offset :
  forall answers offset,
    nth_error (fetchOffsets (fst (clearOldMessages answers offset))) 0 = Some offset.
Proof.
  intros [|[[|u us]|reason] later] offset; cbn; auto.
  destruct (clearOldMessages later (R_add 1 (update_id (last us u)))); reflexivity.
Qed.

(** One non-empty batch: a fetch, then the drain goes on from the id after
    the batch's last item. *)
Lemma clearOldMessages_step :
  forall batch later offset next,
    offsetAfter batch = Some next ->
    clearOldMessages (Resolves batch :: later) offset =
      (GetUpdates timeout limit offset [] :: fst (clearOldMessages later next),
       snd (clearOldMessages later next)).
Proof.
  intros [|u us] later offset next H; cbn in H; [discriminate|].
  injection H as <-. cbn.
  destruct (clearOldMessages later (R_add 1 (update_id (last us u)))); reflexivity.
Qed.

Lemma nonEmpty_offsetAfter :
  forall batch : list Update, nonEmpty batch -> exists next, offsetAfter batch = Some next.
Proof.
  intros [|u us] H; [contradiction H; reflexivity|].
  eexists; reflexivity.
Qed.

(** Non-empty batches followed by an empty one: the drain resolves after one
    fetch per batch and one more, whatever would be answered later. *)
Lemma drain_until_empty :
  forall batches later offset,
    Forall nonEmpty batches ->
    let run := clearOldMessages (map Resolves batches ++ Resolves [] :: later) offset in
    snd run = Fulfilled tt /\
    List.length (fetchOffsets (fst run)) = S (List.length batches) /\
    (forall i batch, nth_error batches i = Some batch ->
       exists u, R_last batch = Some u /\
         nth_error (fetchOffsets (fst run)) (S i) = Some (update_id u + 1)%Z) /\
    fst run = fst (clearOldMessages (map Resolves batches ++ [Resolves []]) offset).
Proof.
  induction batches as [|batch batches IH]; intros later offset Hne; cbn zeta.
  - cbn. repeat split; auto. intros [|i] b H; discriminate.
  - inversion Hne as [|? ? Hb Hbs]; subst.
    destruct (nonEmpty_offsetAfter batch Hb) as [next Hnext].
    cbn [map app].
    rewrite !clearOldMessages_step with (next := next) by exact Hnext.
    cbn [fst snd fetchOffsets List.length].
    destruct (IH later next Hbs) as (Hres & Hlen & Hoff & Hsame).
    repeat split; auto.
    + intros [|i] b Hi; cbn in Hi.
      * injection Hi as <-. destruct batch as [|u us]; [discriminate|].
        exists (last us u). split; [reflexivity|].
        cbn in Hnext. injection Hnext as <-.
        etransitivity; [apply clearOldMessages_first_offset|].
        unfold R_add. f_equal. lia.
      * cbn [nth_error]. apply Hoff; exact Hi.
    + f_equal. exact Hsame.
Qed.

(** Non-empty batches and nothing after them: a further fetch is issued
    after every batch, and the promise has not settled. *)
Lemma drain_without_empty :
  forall batches offset,
    Forall nonEmpty batches ->
    let run := clearOldMessages (map Resolves batches) offset in
    snd run = Pending /\
    List.length (fetchOffsets (fst run)) = S (List.length batches).
Proof.
  induction batches as [|batch batches IH]; intros offset Hne; cbn zeta.
  - cbn. auto.
  - inversion Hne as [|? ? Hb Hbs]; subst.
    destruct (nonEmpty_offsetAfter batch Hb) as [next Hnext].
    cbn [map]. rewrite clearOldMessages_step with (next := next) by exact Hnext.
    cbn [fst snd fetchOffsets List.length].
    destruct (IH next Hbs) as (Hres & Hlen). auto.
Qed.

(** The drain resolves only if an empty batch was fetched after non-empty
    ones. *)
Lemma drain_resolves_inv :
  forall answers offset,
    snd (clearOldMessages answers offset) = Fulfilled tt ->
    exists batches later,
      answers = map Resolves batches ++ Resolves [] :: later /\ Forall nonEmpty batches.
Proof.
  induction answers as [|[updates|reason] rest IH]; intros offset H; cbn in H;
    try discriminate.
  destruct updates as [|u us].
  - exists [], rest. split; [reflexivity|constructor].
  - destruct (clearOldMessages rest (R_add 1 (update_id (last us u)))) as [t r] eqn:E.
    cbn in H. subst r.
    destruct (IH (R_add 1 (update_id (last us u)))) as (bs & later & -> & Hne).
    + rewrite E; reflexivity.
    + exists ((u :: us) :: bs), later. split; [reflexivity|].
      constructor; [discriminate|exact Hne].
Qed.

(** Every call of the drain is [getUpdates(0, 100, offset, [])]. *)
Lemma clearOldMessages_calls :
  forall answers offset,
    fst (clearOldMessages answers offset) =
    map fetchCall (fetchOffsets (fst (clearOldMessages answers offset))).
Proof.
  induction answers as [|[updates|reason] later IH]; intros offset; cbn; auto.
  destruct updates as [|u us]; cbn; auto.
  specialize (IH (R_add 1 (update_id (last us u)))).
  destruct (clearOldMessages later (R_add 1 (update_id (last us u)))) as [t r].
  cbn in *. unfold fetchCall at 1. f_equal. exact IH.
Qed.

Lemma clearOldMessages_call_count :
  forall answers offset,
    List.length (fst (clearOldMessages answers offset)) =
    List.length (fetchOffsets (fst (clearOldMessages answers offset))).
Proof.
  intros answers offset.
  rewrite clearOldMessages_calls at 1. apply length_map.
Qed.

Lemma full_batch_nonEmpty :
  forall batch : list Update, Z.of_nat (List.length batch) = limit -> nonEmpty batch.
Proof.
  intros [|u us] H; [discriminate H|discriminate].
Qed.

(** C1: when every fetched batch holds exactly [limit] = 100 updates and the
    one after them is empty, [clearOldMessages] resolves having issued
    exactly (number of full batches + 1) [getUpdates] calls, each with
    timeout 0 and limit 100; the first carries the offset it was called
    with and the call after batch [i] carries the id of the last update of
    batch [i] plus 1. *)
Theorem drain_full_batches_fetches_and_offsets :
  forall (batches : list (list Update)) (offset : Z),
    Forall (fun batch => Z.of_nat (List.length batch) = limit) batches ->
    let run := clearOldMessages (map Resolves batches ++ [Resolves []]) offset in
    snd run = Fulfilled tt /\
    fst run = map fetchCall (fetchOffsets (fst run)) /\
    List.length (fst run) = List.length batches + 1 /\
    nth_error (fetchOffsets (fst run)) 0 = Some offset /\
    (forall i batch, nth_error batches i = Some batch ->
       exists u, R_last batch = Some u /\
         nth_error (fetchOffsets (fst run)) (S i) = Some (update_id u + 1)%Z).
Proof.
  intros batches offset Hfull run.
  assert (Hne : Forall nonEmpty batches).
  { eapply Forall_impl; [|exact Hfull]. apply full_batch_nonEmpty. }
  destruct (drain_until_empty batches [] offset Hne) as (Hres & Hlen & Hoff & _).
  fold run in Hres, Hlen, Hoff.
  split; [exact Hres|].
  split; [apply clearOldMessages_calls|].
  split; [unfold run; rewrite clearOldMessages_call_count; fold run; lia|].
  split; [apply clearOldMessages_first_offset|exact Hoff].
Qed.

(** C8: after non-empty batches, the first empty batch ends the drain: the
    promise resolves, one fetch was issued per non-empty batch plus the one
    that came back empty, and answers that would come later are never
    asked for.  If no empty batch arrives, a further fetch follows every
    non-empty batch and the promise stays pending.  The drain resolves
    exactly when an empty batch is fetched after non-empty ones. *)
Theorem drain_ends_exactly_at_first_empty_batch :
  forall (batches : list (list Update)) (later : list (settled (list Update)))
         (offset : Z),
    Forall nonEmpty batches ->
    (let run := clearOldMessages (map Resolves batches ++ Resolves [] :: later) offset in
     snd run = Fulfilled tt /\
     forallb isFetch (fst run) = true /\
     List.length (fst run) = S (List.length batches) /\
     fst run = fst (clearOldMessages (map Resolves batches ++ [Resolves []]) offset)) /\
    (let run := clearOldMessages (map Resolves batches) offset in
     snd run = Pending /\
     forallb isFetch (fst run) = true /\
     List.length (fst run) = S (List.length batches)) /\
    (forall answers,
       snd (clearOldMessages answers offset) = Fulfilled tt <->
       exists nonEmptyBatches rest,
         answers = map Resolves nonEmptyBatches ++ Resolves [] :: rest /\
         Forall nonEmpty nonEmptyBatches).
Proof.
  intros batches later offset Hne.
  split; [|split].
  - destruct (drain_until_empty batches later offset Hne) as (Hres & Hlen & _ & Hsame).
    cbn zeta. rewrite clearOldMessages_call_count.
    auto using clearOldMessages_fetches_only.
  - destruct (drain_without_empty batches offset Hne) as (Hres & Hlen).
    cbn zeta. rewrite clearOldMessages_call_count.
    auto using clearOldMessages_fetches_only.
  - intros answers. split.
    + apply drain_resolves_inv.
    + intros (bs & rest & -> & Hbs).
      apply (drain_until_empty bs rest offset Hbs).
Qed.

(** * The startup chain *)

Lemma secondTask_run :
  forall tgBot rt settings w,
    secondTask tgBot rt settings w =
    (secondOutcome tgBot rt settings, w, secondTrace tgBot settings).
Proof.
  intros tgBot rt settings w.
  unfold secondTask, secondOutcome, secondTrace.
  destruct (skipOldMessages settings).
  - destruct (clearOldMessages (getUpdates_answers tgBot) defaultOffset); reflexivity.
  - reflexivity.
Qed.

Lemma readyCallback_run :
  forall logger dcBot messageMap bridgeMap settings me w,
    readyCallback logger dcBot messageMap bridgeMap settings me w =
    (Fulfilled detachedChains,
     installed (mkTediCross me bridgeMap dcBot settings messageMap logger [] []) w,
     callbackTrace me).
Proof.
  intros. unfold readyCallback, installed, pipeline.
  cbn. rewrite <- !app_assoc. reflexivity.
Qed.

(** A run of [setup] in closed form, by the state of [Promise.all]. *)
Lemma setup_run :
  forall rt logger tgBot dcBot messageMap bridgeMap settings w,
    setup rt logger tgBot dcBot messageMap bridgeMap settings w =
    match Promise_all (getMeSettlesFirst rt) (getMe_answer tgBot)
                      (secondOutcome tgBot rt settings) with
    | Fulfilled both =>
        (startPolling_answer tgBot,
         installed (mkTediCross (fst both) bridgeMap dcBot settings messageMap logger [] [])
                   (subscribed w),
         startupTrace tgBot settings ++ callbackTrace (fst both) ++
         StartPolling :: flat_map (runDetached tgBot rt) detachedChains)
    | Rejected reason => (Rejected reason, subscribed w, startupTrace tgBot settings)
    | Pending => (Pending, subscribed w, startupTrace tgBot settings)
    end.
Proof.
  intros rt lg tgBot dc mm bm st w. unfold setup, settings_on, telegram_getMe.
  unfold bind, call, calls, update, ret.
  cbv beta iota. rewrite secondTask_run. fold (subscribed w).
  destruct (Promise_all (getMeSettlesFirst rt) (getMe_answer tgBot)
                        (secondOutcome tgBot rt st)) as [both|reason|];
    cbn [then_ ret].
  - rewrite readyCallback_run.
    unfold telegram_startPolling, bind, call, ret, detachedReactions, startupTrace.
    cbn [then_ app]. rewrite !app_nil_r. reflexivity.
  - unfold detachedReactions, startupTrace. cbn [app]. rewrite !app_nil_r. reflexivity.
  - unfold detachedReactions, startupTrace. cbn [app]. rewrite !app_nil_r. reflexivity.
Qed.

(** ** Facts about traces *)

Lemma installs_app :
  forall a b, installs (a ++ b) = installs a ++ installs b.
Proof.
  induction a as [|e a IH]; intros b; [reflexivity|].
  destruct e; cbn; rewrite ?IH; reflexivity.
Qed.

Lemma fetchOffsets_app :
  forall a b, fetchOffsets (a ++ b) = fetchOffsets a ++ fetchOffsets b.
Proof.
  induction a as [|e a IH]; intros b; [reflexivity|].
  destruct e; cbn; rewrite ?IH; reflexivity.
Qed.

Lemma no_polling_not_In :
  forall t, existsb isStartPolling t = false -> ~ In StartPolling t.
Proof.
  intros t H Hin.
  assert (existsb isStartPolling t = true) as E.
  { apply existsb_exists. exists StartPolling. split; [exact Hin|reflexivity]. }
  congruence.
Qed.

Lemma untilPolling_at :
  forall a b, existsb isStartPolling a = false ->
    untilPolling (a ++ StartPolling :: b) = a ++ [StartPolling].
Proof.
  induction a as [|e a IH]; intros b H; [reflexivity|].
  cbn in H. apply orb_false_iff in H as [He Ha].
  destruct e; cbn; try discriminate He; rewrite (IH b Ha); reflexivity.
Qed.

Lemma afterPolling_at :
  forall a b, existsb isStartPolling a = false ->
    afterPolling (a ++ StartPolling :: b) = b.
Proof.
  induction a as [|e a IH]; intros b H; [reflexivity|].
  cbn in H. apply orb_false_iff in H as [He Ha].
  destruct e; cbn; try discriminate He; apply (IH b Ha).
Qed.

(** A trace with a single [startPolling] call splits around it in one way. *)
Lemma split_at_polling :
  forall a b a' b',
    existsb isStartPolling a = false ->
    existsb isStartPolling b = false ->
    a ++ StartPolling :: b = a' ++ StartPolling :: b' ->
    a' = a /\ b' = b.
Proof.
  induction a as [|e a IH]; intros b a' b' Ha Hb E.
  - destruct a' as [|e' a'].
    + cbn in E. injection E as ->. auto.
    + cbn in E. injection E as <- ->.
      rewrite existsb_app in Hb. cbn in Hb. rewrite orb_true_r in Hb. discriminate.
  - cbn in Ha. apply orb_false_iff in Ha as [He Ha].
    destruct a' as [|e' a'].
    + cbn in E. injection E as -> _. discriminate He.
    + cbn in E. injection E as <- E.
      destruct (IH b a' b' Ha Hb E) as [-> ->]. auto.
Qed.

Lemma startup_calls_facts :
  forall t, forallb isStartupCall t = true ->
    existsb isStartPolling t = false /\ installs t = [] /\
    existsb isRegistration t = false.
Proof.
  induction t as [|e t IH]; intros H; [auto|].
  cbn in H. apply andb_true_iff in H as [He Ht].
  destruct (IH Ht) as (H1 & H2 & H3).
  destruct e; cbn in *; try discriminate He; auto.
Qed.

Lemma detached_calls_facts :
  forall t, forallb isDetachedCall t = true ->
    existsb isStartPolling t = false /\ installs t = [] /\ fetchOffsets t = [].
Proof.
  induction t as [|e t IH]; intros H; [auto|].
  cbn in H. apply andb_true_iff in H as [He Ht].
  destruct (IH Ht) as (H1 & H2 & H3).
  destruct e; cbn in *; try discriminate He; auto.
Qed.

Lemma secondTrace_startup :
  forall tgBot settings, forallb isStartupCall (secondTrace tgBot settings) = true.
Proof.
  intros tgBot st. unfold secondTrace. destruct (skipOldMessages st); [|reflexivity].
  pose proof (clearOldMessages_fetches_only (getUpdates_answers tgBot) defaultOffset) as H.
  rewrite forallb_forall in *. intros e He. specialize (H e He).
  destruct e; cbn in *; congruence.
Qed.

Lemma startupTrace_startup :
  forall tgBot settings, forallb isStartupCall (startupTrace tgBot settings) = true.
Proof.
  intros. unfold startupTrace. cbn. apply secondTrace_startup.
Qed.

Lemma commandCheck_detached :
  forall refetched, forallb isDetachedCall (commandCheck refetched) = true.
Proof.
  intros [commands|reason|]; unfold commandCheck; auto.
  destruct (List.length commands <? 2)%nat; reflexivity.
Qed.

Lemma detached_calls :
  forall tgBot rt,
    forallb isDetachedCall (flat_map (runDetached tgBot rt) detachedChains) = true.
Proof.
  intros tgBot rt. unfold detachedChains. cbn [flat_map runDetached].
  rewrite !forallb_app. cbn [forallb]. unfold verifyCommands, afterSetRights.
  repeat (apply andb_true_iff; split); auto.
  - destruct (setMyCommands_answer tgBot); cbn; auto.
    destruct (timerFired rt); cbn; auto using commandCheck_detached.
  - destruct (setMyDefaultAdministratorRights_answer tgBot false); reflexivity.
  - destruct (setMyDefaultAdministratorRights_answer tgBot true); reflexivity.
Qed.

Lemma Promise_all_fulfilled :
  forall (A B : Type) first (a : outcome A) (b : outcome B) both,
    Promise_all first a b = Fulfilled both ->
    a = Fulfilled (fst both) /\ b = Fulfilled (snd both).
Proof.
  intros A B first [x|e|] [y|e'|] both H; cbn in H; try discriminate.
  injection H as <-. auto.
Qed.

Lemma Promise_all_isFulfilled :
  forall (A B : Type) first (a : outcome A) (b : outcome B),
    isFulfilled (Promise_all first a b) = isFulfilled a && isFulfilled b.
Proof.
  intros A B first [x|e|] [y|e'|]; reflexivity.
Qed.

Lemma readyStepHasRun_Promise_all :
  forall rt tgBot settings,
    readyStepHasRun rt tgBot settings =
    isFulfilled (Promise_all (getMeSettlesFirst rt) (getMe_answer tgBot)
                             (secondOutcome tgBot rt settings)).
Proof.
  intros. rewrite Promise_all_isFulfilled. reflexivity.
Qed.

Lemma no_sleep_not_In :
  forall t ms, existsb isSleep t = false -> ~ In (Sleep ms) t.
Proof.
  intros t ms H Hin.
  assert (existsb isSleep t = true) as E.
  { apply existsb_exists. exists (Sleep ms). split; [exact Hin|reflexivity]. }
  congruence.
Qed.

Lemma fetches_no_sleep :
  forall t, forallb isFetch t = true -> existsb isSleep t = false.
Proof.
  induction t as [|e t IH]; intros H; [reflexivity|].
  cbn in H. apply andb_true_iff in H as [He Ht].
  destruct e; cbn in *; try discriminate He; auto.
Qed.

Lemma detached_no_sleep :
  forall t, forallb isDetachedCall t = true -> existsb isSleep t = false.
Proof.
  induction t as [|e t IH]; intros H; [reflexivity|].
  cbn in H. apply andb_true_iff in H as [He Ht].
  destruct e; cbn in *; try discriminate He; auto.
Qed.

(** The trace of a run, by whether the ready callback has run. *)
Lemma setup_trace :
  forall rt logger tgBot dcBot messageMap bridgeMap settings w,
    traceOf (setup rt logger tgBot dcBot messageMap bridgeMap settings w) =
    match Promise_all (getMeSettlesFirst rt) (getMe_answer tgBot)
                      (secondOutcome tgBot rt settings) with
    | Fulfilled both =>
        startupTrace tgBot settings ++ callbackTrace (fst both) ++
        StartPolling :: flat_map (runDetached tgBot rt) detachedChains
    | _ => startupTrace tgBot settings
    end.
Proof.
  intros rt lg tgBot dc mm bm st w. rewrite setup_run.
  destruct (Promise_all _ _ _); reflexivity.
Qed.

(** C9: [setup] subscribes the listener, calls [getMe] and then starts the
    second task without waiting for the answer of [getMe], whatever that
    answer is.  With [skipOldMessages] set the second task is the drain from
    the default offset and no [sleep] is ever called; otherwise it is
    [sleep(1000)] and no [getUpdates] is ever called.  Nothing else happens
    until both promises are fulfilled. *)
Theorem identity_request_and_second_task_are_concurrent :
  forall rt logger tgBot dcBot messageMap bridgeMap settings w,
    let trace := traceOf (setup rt logger tgBot dcBot messageMap bridgeMap settings w) in
    (if skipOldMessages settings
     then (exists rest,
             trace = SettingsOn "bridgeUpdate" :: GetMe ::
                     fst (clearOldMessages (getUpdates_answers tgBot) defaultOffset) ++ rest) /\
          (forall ms, ~ In (Sleep ms) trace)
     else (exists rest, trace = SettingsOn "bridgeUpdate" :: GetMe :: Sleep 1000 :: rest) /\
          fetchOffsets trace = []) /\
    (readyStepHasRun rt tgBot settings = false ->
     trace = SettingsOn "bridgeUpdate" :: GetMe :: secondTrace tgBot settings).
Proof.
  intros rt lg tgBot dc mm bm st w trace.
  assert (Htrace : exists rest,
             trace = startupTrace tgBot st ++ rest /\
             existsb isSleep rest = false /\ fetchOffsets rest = [] /\
             (readyStepHasRun rt tgBot st = false -> rest = [])).
  { unfold trace. rewrite setup_trace, readyStepHasRun_Promise_all.
    destruct (Promise_all _ _ _) as [both|reason|].
    - eexists. split; [reflexivity|].
      destruct (detached_calls_facts _ (detached_calls tgBot rt)) as (_ & _ & Hf).
      pose proof (detached_no_sleep _ (detached_calls tgBot rt)) as Hs.
      rewrite existsb_app, fetchOffsets_app. cbn [existsb isSleep fetchOffsets].
      rewrite Hs, Hf. repeat split; try reflexivity. discriminate.
    - exists []. rewrite app_nil_r. auto.
    - exists []. rewrite app_nil_r. auto. }
  destruct Htrace as (rest & -> & Hsleep & Hfetch & Hrest).
  split.
  - unfold startupTrace, secondTrace. destruct (skipOldMessages st).
    + split; [exists rest; reflexivity|].
      intros ms. apply no_sleep_not_In. cbn [app existsb isSleep orb].
      rewrite existsb_app, Hsleep, orb_false_r.
      apply fetches_no_sleep, clearOldMessages_fetches_only.
    + split; [exists rest; reflexivity|].
      cbn. exact Hfetch.
  - intros H. rewrite (Hrest H), app_nil_r. reflexivity.
Qed.

(** C5: if [getMe] rejects, [tgBot.ready] is rejected; [setMyCommands] and
    [setMyDefaultAdministratorRights] are never called, no handler is
    installed on the bot, its context and error handler are left as they
    were, and [startPolling] is never called. *)
Theorem identity_failure_is_fatal :
  forall rt logger tgBot dcBot messageMap bridgeMap settings w reason,
    getMe_answer tgBot = Rejected reason ->
    let run := setup rt logger tgBot dcBot messageMap bridgeMap settings w in
    (exists err, resultOf run = Rejected err) /\
    existsb isRegistration (traceOf run) = false /\
    installs (traceOf run) = [] /\
    tgMiddleware (worldOf run) = tgMiddleware w /\
    tgContext (worldOf run) = tgContext w /\
    tgErrorHandler (worldOf run) = tgErrorHandler w /\
    ~ In StartPolling (traceOf run).
Proof.
  intros rt lg tgBot dc mm bm st w reason Hme run.
  unfold run. rewrite setup_run, Hme.
  destruct (startup_calls_facts _ (startupTrace_startup tgBot st)) as (Hp & Hi & Hr).
  assert (Hall : exists err,
             Promise_all (getMeSettlesFirst rt) (Rejected reason : outcome Me)
                         (secondOutcome tgBot rt st) = Rejected err).
  { destruct (secondOutcome tgBot rt st); cbn; eauto. }
  destruct Hall as (err & ->).
  unfold resultOf, worldOf, traceOf. cbn [fst snd subscribed tgMiddleware tgContext tgErrorHandler].
  repeat split; eauto using no_polling_not_In.
Qed.

(** C4: wherever [startPolling] is called in a run, [getMe] has been
    fulfilled before; with [skipOldMessages] the drain has resolved and all
    its fetches lie before the call, none after; without it [sleep(1000)]
    was called before and has resolved; the whole pipeline and the error
    handler were installed before the call and nothing is installed after
    it; and [startPolling] is called only once. *)
Theorem polling_starts_after_drain_and_installation :
  forall rt logger tgBot dcBot messageMap bridgeMap settings w before after,
    traceOf (setup rt logger tgBot dcBot messageMap bridgeMap settings w) =
      before ++ StartPolling :: after ->
    (exists me, getMe_answer tgBot = Fulfilled me /\ In GetMe before) /\
    (if skipOldMessages settings
     then snd (clearOldMessages (getUpdates_answers tgBot) defaultOffset) = Fulfilled tt /\
          fetchOffsets before =
            fetchOffsets (fst (clearOldMessages (getUpdates_answers tgBot) defaultOffset)) /\
          fetchOffsets after = []
     else sleep_answer rt = Fulfilled tt /\ In (Sleep 1000) before /\
          fetchOffsets (before ++ after) = []) /\
    installs before = pipeline /\
    In TgCatch before /\
    installs after = [] /\
    ~ In StartPolling before /\ ~ In StartPolling after.
Proof.
  intros rt lg tgBot dc mm bm st w before after Htrace.
  rewrite setup_trace in Htrace.
  destruct (startup_calls_facts _ (startupTrace_startup tgBot st)) as (Hp & Hi & _).
  destruct (detached_calls_facts _ (detached_calls tgBot rt)) as (Hdp & Hdi & Hdf).
  destruct (Promise_all _ _ _) as [both|reason|] eqn:Hall.
  2,3: exfalso; apply (no_polling_not_In _ Hp); rewrite Htrace;
       apply in_or_app; right; left; reflexivity.
  apply Promise_all_fulfilled in Hall as [Hme Hsecond].
  rewrite app_assoc in Htrace.
  assert (Hbefore : existsb isStartPolling
                      (startupTrace tgBot st ++ callbackTrace (fst both)) = false).
  { rewrite existsb_app, Hp. reflexivity. }
  destruct (split_at_polling _ _ _ _ Hbefore Hdp Htrace) as [-> ->].
  split; [|split; [|split; [|split; [|split; [|split]]]]].
  - exists (fst both). split; [exact Hme|]. right. left. reflexivity.
  - unfold secondOutcome in Hsecond. unfold startupTrace, secondTrace.
    destruct (skipOldMessages st).
    + destruct (snd both). split; [exact Hsecond|]. split; [|exact Hdf].
      cbn [app fetchOffsets]. rewrite !fetchOffsets_app.
      change (fetchOffsets (callbackTrace (fst both))) with (@nil Z).
      apply app_nil_r.
    + destruct (snd both). split; [exact Hsecond|]. split.
      * right. right. left. reflexivity.
      * rewrite !fetchOffsets_app, Hdf. reflexivity.
  - rewrite installs_app, Hi. reflexivity.
  - apply in_or_app. right. unfold callbackTrace.
    repeat (first [left; reflexivity | right]).
  - exact Hdi.
  - apply no_polling_not_In, Hbefore.
  - apply no_polling_not_In, Hdp.
Qed.

(** * The command check *)

Lemma setup_result :
  forall rt logger tgBot dcBot messageMap bridgeMap settings w,
    resultOf (setup rt logger tgBot dcBot messageMap bridgeMap settings w) =
    match Promise_all (getMeSettlesFirst rt) (getMe_answer tgBot)
                      (secondOutcome tgBot rt settings) with
    | Fulfilled _ => startPolling_answer tgBot
    | Rejected reason => Rejected reason
    | Pending => Pending
    end.
Proof.
  intros rt lg tgBot dc mm bm st w. rewrite setup_run.
  destruct (Promise_all _ _ _); reflexivity.
Qed.

Lemma setup_world :
  forall rt logger tgBot dcBot messageMap bridgeMap settings w,
    worldOf (setup rt logger tgBot dcBot messageMap bridgeMap settings w) =
    match Promise_all (getMeSettlesFirst rt) (getMe_answer tgBot)
                      (secondOutcome tgBot rt settings) with
    | Fulfilled both =>
        installed (mkTediCross (fst both) bridgeMap dcBot settings messageMap logger [] [])
                  (subscribed w)
    | _ => subscribed w
    end.
Proof.
  intros rt lg tgBot dc mm bm st w. rewrite setup_run.
  destruct (Promise_all _ _ _); reflexivity.
Qed.

Lemma callback_then_polling :
  forall tgBot settings me,
    existsb isStartPolling (startupTrace tgBot settings ++ callbackTrace me) = false.
Proof.
  intros tgBot st me. rewrite existsb_app.
  destruct (startup_calls_facts _ (startupTrace_startup tgBot st)) as (-> & _).
  reflexivity.
Qed.

(** C2 (amended): the answer to the second [getMyCommands] changes neither
    the state of [tgBot.ready], nor what [setup] leaves installed, nor any
    call up to and including [startPolling].  The check itself logs what it
    fetched with [logger.info] and throws an [Error], which nothing catches
    and which is not handed to the logger, exactly when fewer than two
    commands came back; a rejected fetch is unhandled as well.  Once the
    ready step has run, [setMyCommands] has resolved and the timer has fired,
    the check is what follows [startPolling], after [setTimeout(5000)] and
    the [getMyCommands] call. *)
Theorem command_check_leaves_startup_untouched :
  forall rt logger tgBot dcBot messageMap bridgeMap settings w refetched,
    let run := setup rt logger tgBot dcBot messageMap bridgeMap settings w in
    let run' := setup rt logger (withGetMyCommands refetched tgBot) dcBot messageMap
                      bridgeMap settings w in
    resultOf run' = resultOf run /\
    worldOf run' = worldOf run /\
    untilPolling (traceOf run') = untilPolling (traceOf run) /\
    (forall commands,
       In (LoggerInfo [LogText "Telegram commands:"; LogCommands commands])
          (commandCheck (Fulfilled commands)) /\
       ((exists err, In (UnhandledRejection err) (commandCheck (Fulfilled commands))) <->
        (List.length commands < 2)%nat) /\
       (forall err, ~ In (LoggerError err) (commandCheck (Fulfilled commands)))) /\
    (forall reason, commandCheck (Rejected reason) = [UnhandledRejection reason]) /\
    (readyStepHasRun rt tgBot settings = true ->
     setMyCommands_answer tgBot = Fulfilled tt ->
     timerFired rt = true ->
     exists rights,
       afterPolling (traceOf run') =
       SetTimeout 5000 :: GetMyCommands :: commandCheck refetched ++ rights).
Proof.
  intros rt lg tgBot dc mm bm st w refetched run run'.
  unfold run, run'.
  rewrite !setup_result, !setup_world, !setup_trace.
  change (secondOutcome (withGetMyCommands refetched tgBot) rt st)
    with (secondOutcome tgBot rt st).
  change (startupTrace (withGetMyCommands refetched tgBot) st)
    with (startupTrace tgBot st).
  change (getMe_answer (withGetMyCommands refetched tgBot)) with (getMe_answer tgBot).
  change (startPolling_answer (withGetMyCommands refetched tgBot))
    with (startPolling_answer tgBot).
  rewrite readyStepHasRun_Promise_all.
  split; [reflexivity|]. split; [reflexivity|]. split; [|split; [|split]].
  - destruct (Promise_all _ _ _) as [both|reason|]; try reflexivity.
    rewrite !app_assoc.
    rewrite !untilPolling_at by apply callback_then_polling. reflexivity.
  - intros commands. unfold commandCheck. split; [left; reflexivity|]. split.
    + destruct (Nat.ltb_spec (List.length commands) 2) as [Hlt|Hge].
      * split; [intros _; exact Hlt|]. intros _. eexists. right. left. reflexivity.
      * split; [|lia]. intros (err & [H|[]]). discriminate H.
    + intros err [H|H]; [discriminate H|].
      destruct (List.length commands <? 2)%nat;
        [destruct H as [H|[]]; discriminate H|destruct H].
  - reflexivity.
  - intros Hready Hset Hfired.
    destruct (Promise_all _ _ _) as [both|reason|]; try discriminate Hready.
    rewrite app_assoc, afterPolling_at by apply callback_then_polling.
    unfold detachedChains. cbn [flat_map runDetached]. unfold verifyCommands.
    change (setMyCommands_answer (withGetMyCommands refetched tgBot))
      with (setMyCommands_answer tgBot).
    rewrite Hset, Hfired. cbn [getMyCommands_answer withGetMyCommands].
    eexists. cbn [app]. reflexivity.
Qed.

(** * The installed pipeline *)

(** C3 (amended): the stack [setup] installs is the bot's previous stack
    followed by [pipeline], registered in that order by the ready callback;
    no handler of it is the per-command filter
    [removeBridgesIgnoringCommands], whose registration on line 183 is a
    comment.  What follows the direction filter [removeD2TBridges] is the
    join and leave filters, the two membership endwares, the content
    enrichment and the two delivery endwares. *)
Theorem pipeline_has_no_per_command_filter :
  forall rt logger tgBot dcBot messageMap bridgeMap settings w,
    readyStepHasRun rt tgBot settings = true ->
    let run := setup rt logger tgBot dcBot messageMap bridgeMap settings w in
    tgMiddleware (worldOf run) = tgMiddleware w ++ pipeline /\
    installs (traceOf run) = pipeline /\
    (forall r, In r pipeline -> handler r <> removeBridgesIgnoringCommands) /\
    afterStage removeD2TBridges pipeline =
      [ mkRegistration (OnUpdateTypes ["new_chat_members"]) removeBridgesIgnoringJoinMessages;
        mkRegistration (OnUpdateTypes ["left_chat_member"]) removeBridgesIgnoringLeaveMessages;
        mkRegistration (OnUpdateTypes ["new_chat_members"]) newChatMembers;
        mkRegistration (OnUpdateTypes ["left_chat_member"]) leftChatMember;
        mkRegistration OnEveryUpdate addFromObj;
        mkRegistration OnEveryUpdate addReplyObj;
        mkRegistration OnEveryUpdate addForwardFrom;
        mkRegistration OnEveryUpdate addTextObj;
        mkRegistration OnEveryUpdate addFileObj;
        mkRegistration OnEveryUpdate addFileLink;
        mkRegistration OnEveryUpdate addPreparedObj;
        mkRegistration (OnUpdateTypes ["edited_message"; "edited_channel_post"]) handleEdits;
        mkRegistration OnEveryUpdate relayMessage ].
Proof.
  intros rt lg tgBot dc mm bm st w Hready run.
  unfold run. rewrite setup_world, setup_trace.
  rewrite readyStepHasRun_Promise_all in Hready.
  destruct (Promise_all _ _ _) as [both|reason|]; try discriminate Hready.
  split; [reflexivity|]. split; [|split].
  - rewrite !installs_app.
    destruct (startup_calls_facts _ (startupTrace_startup tgBot st)) as (_ & -> & _).
    cbn [installs app].
    destruct (detached_calls_facts _ (detached_calls tgBot rt)) as (_ & -> & _).
    reflexivity.
  - intros r Hin. unfold pipeline in Hin. cbn [In] in Hin.
    repeat (destruct Hin as [<-|Hin]; [discriminate|]). destruct Hin.
  - reflexivity.
Qed.

(** * Configuration changes *)

(** With no [TediCross] object on the context, the listener throws. *)
Lemma emitTo_without_context :
  forall ls newBridgeMap w,
    tgContext w = None ->
    In ("bridgeUpdate", AssignBridgeMap) ls ->
    exists msg, emitTo ls "bridgeUpdate" newBridgeMap w = inl (TypeError msg).
Proof.
  induction ls as [|[name l] ls IH]; intros nb w Hctx Hin; [destruct Hin|].
  cbn [emitTo]. destruct (String.eqb name "bridgeUpdate") eqn:Hname.
  - destruct l. cbn. rewrite Hctx. eexists. reflexivity.
  - destruct Hin as [Heq|Hin].
    + injection Heq as -> _. rewrite String.eqb_refl in Hname. discriminate.
    + apply IH; assumption.
Qed.

(** With the object in place, each listener replaces the [bridgeMap] field
    by the new table and touches nothing else. *)
Lemma emitTo_with_context :
  forall ls newBridgeMap w tc,
    tgContext w = Some tc ->
    exists w',
      emitTo ls "bridgeUpdate" newBridgeMap w = inr w' /\
      tgMiddleware w' = tgMiddleware w /\
      tgErrorHandler w' = tgErrorHandler w /\
      settingsListeners w' = settingsListeners w /\
      (tgContext w' = Some tc \/ tgContext w' = Some (setBridgeMap newBridgeMap tc)) /\
      (In ("bridgeUpdate", AssignBridgeMap) ls ->
       tgContext w' = Some (setBridgeMap newBridgeMap tc)).
Proof.
  induction ls as [|[name l] ls IH]; intros nb w tc Hctx.
  - exists w. cbn. repeat split; auto. intros [].
  - cbn [emitTo]. destruct (String.eqb name "bridgeUpdate") eqn:Hname.
    + destruct l. cbn [runListener]. rewrite Hctx.
      destruct (IH nb (mkWorld (Some (setBridgeMap nb tc)) (tgMiddleware w)
                               (tgErrorHandler w) (settingsListeners w))
                   (setBridgeMap nb tc) eq_refl)
        as (w' & -> & Hm & Hh & Hl & Hc & _).
      exists w'. cbn in Hm, Hh, Hl.
      assert (Hnew : tgContext w' = Some (setBridgeMap nb tc)).
      { destruct Hc as [Hc|Hc]; exact Hc. }
      repeat split; auto.
    + destruct (IH nb w tc Hctx) as (w' & -> & Hm & Hh & Hl & Hc & Hin).
      exists w'. repeat split; auto.
      intros [Heq|Hin']; [|auto].
      injection Heq as -> _. rewrite String.eqb_refl in Hname. discriminate.
Qed.

(** X1: once the ready step has run, the pipeline reads the table [setup]
    was called with, and a ["bridgeUpdate"] notification replaces it by the
    new one in a single assignment; the rest of the context, the stack and
    the error handler are unchanged. *)
Theorem bridgeUpdate_after_ready_swaps_table :
  forall rt logger tgBot dcBot messageMap bridgeMap settings w newBridgeMap,
    readyStepHasRun rt tgBot settings = true ->
    let ready := worldOf (setup rt logger tgBot dcBot messageMap bridgeMap settings w) in
    pipelineBridgeMap ready = Some bridgeMap /\
    exists tc w',
      tgContext ready = Some tc /\
      settings_emit "bridgeUpdate" newBridgeMap ready = inr w' /\
      tgContext w' = Some (setBridgeMap newBridgeMap tc) /\
      pipelineBridgeMap w' = Some newBridgeMap /\
      tgMiddleware w' = tgMiddleware ready /\
      tgErrorHandler w' = tgErrorHandler ready.
Proof.
  intros rt lg tgBot dc mm bm st w nb Hready ready.
  unfold ready. rewrite setup_world.
  rewrite readyStepHasRun_Promise_all in Hready.
  destruct (Promise_all _ _ _) as [both|reason|]; try discriminate Hready.
  split; [reflexivity|].
  set (tc := mkTediCross (fst both) bm dc st mm lg [] []).
  destruct (emitTo_with_context (settingsListeners (installed tc (subscribed w))) nb
              (installed tc (subscribed w)) tc eq_refl)
    as (w' & Hemit & Hm & Hh & _ & _ & Hin).
  exists tc, w'. unfold settings_emit.
  assert (Hctx : tgContext w' = Some (setBridgeMap nb tc)).
  { apply Hin. cbn. apply in_or_app. right. left. reflexivity. }
  repeat split; auto.
  unfold pipelineBridgeMap. rewrite Hctx. reflexivity.
Qed.

(** C10: the listener is subscribed by the synchronous part of [setup],
    whatever the state of the promises.  Starting from a bot whose context
    has no [TediCross] object, the object is present after [setup] only if
    the ready step has run, and then [getMe] was fulfilled with the identity
    stored in it.  As long as the ready step has not run, a ["bridgeUpdate"]
    notification makes the listener throw a [TypeError]: no world with a
    new table results. *)
Theorem early_bridgeUpdate_throws :
  forall rt logger tgBot dcBot messageMap bridgeMap settings w newBridgeMap,
    tgContext w = None ->
    let w' := worldOf (setup rt logger tgBot dcBot messageMap bridgeMap settings w) in
    In ("bridgeUpdate", AssignBridgeMap) (settingsListeners w') /\
    (forall tc, tgContext w' = Some tc ->
       readyStepHasRun rt tgBot settings = true /\
       getMe_answer tgBot = Fulfilled (me tc)) /\
    (readyStepHasRun rt tgBot settings = false ->
     tgContext w' = None /\
     exists msg, settings_emit "bridgeUpdate" newBridgeMap w' = inl (TypeError msg)).
Proof.
  intros rt lg tgBot dc mm bm st w nb Hctx w'.
  unfold w'. rewrite setup_world, readyStepHasRun_Promise_all.
  assert (Hsub : In ("bridgeUpdate", AssignBridgeMap) (settingsListeners (subscribed w))).
  { cbn. apply in_or_app. right. left. reflexivity. }
  destruct (Promise_all _ _ _) as [both|reason|] eqn:Hall.
  - split; [exact Hsub|]. split.
    + intros tc Htc. cbn in Htc. injection Htc as <-. split; [reflexivity|].
      apply Promise_all_fulfilled in Hall as [Hme _]. exact Hme.
    + discriminate.
  - split; [exact Hsub|]. split.
    + intros tc Htc. cbn in Htc. congruence.
    + intros _. split; [exact Hctx|].
      apply emitTo_without_context; [exact Hctx|exact Hsub].
  - split; [exact Hsub|]. split.
    + intros tc Htc. cbn in Htc. congruence.
    + intros _. split; [exact Hctx|].
      apply emitTo_without_context; [exact Hctx|exact Hsub].
Qed.

(** * Errors of pipeline stages *)

Section DispatchFacts.

Variable stage : Handler -> Ctx -> StageResult.
Variable contextOf : Update -> Ctx.

(** With the handler of lines 201-207 installed, every error is logged and
    the loop goes on to the next update. *)
Lemma processUpdates_with_handler :
  forall updates w,
    tgErrorHandler w = Some LogTheError ->
    processUpdates stage contextOf updates w =
    (Running, w,
     map LoggerError (thrownErrors stage contextOf (tgMiddleware w) updates)).
Proof.
  induction updates as [|u updates IH]; intros w Hh; [reflexivity|].
  cbn [processUpdates]. unfold bind, handleUpdate. rewrite Hh.
  unfold thrownErrors. cbn [flat_map].
  destruct (runMiddleware stage (tgMiddleware w) u (contextOf u)) as [err|];
    rewrite (IH w Hh); reflexivity.
Qed.

(** C7: after a run of [setup] whose ready step has run, the dispatcher
    processing any list of updates with any behaviour of the stages is
    still running at the end, has called [logger.error] once for each error
    a stage threw, in order, and has made no other call; the stack and the
    handler are unchanged, so later updates are processed like earlier
    ones. *)
Theorem stage_errors_are_logged_and_processing_continues :
  forall rt logger tgBot dcBot messageMap bridgeMap settings w updates,
    readyStepHasRun rt tgBot settings = true ->
    let ready := worldOf (setup rt logger tgBot dcBot messageMap bridgeMap settings w) in
    In TgCatch (untilPolling
                  (traceOf (setup rt logger tgBot dcBot messageMap bridgeMap settings w))) /\
    tgErrorHandler ready = Some LogTheError /\
    processUpdates stage contextOf updates ready =
    (Running, ready,
     map LoggerError (thrownErrors stage contextOf (tgMiddleware ready) updates)) /\
    (forall u later,
       traceOf (processUpdates stage contextOf (u :: later) ready) =
       map LoggerError (thrownErrors stage contextOf (tgMiddleware ready) [u]) ++
       traceOf (processUpdates stage contextOf later ready)).
Proof.
  intros rt lg tgBot dc mm bm st w updates Hready ready.
  assert (Hh : tgErrorHandler ready = Some LogTheError).
  { unfold ready. rewrite setup_world.
    rewrite readyStepHasRun_Promise_all in Hready.
    destruct (Promise_all _ _ _); try discriminate Hready. reflexivity. }
  split; [|split; [exact Hh|split]].
  - rewrite setup_trace. rewrite readyStepHasRun_Promise_all in Hready.
    destruct (Promise_all _ _ _) as [both|reason|]; try discriminate Hready.
    rewrite app_assoc, untilPolling_at by apply callback_then_polling.
    apply in_or_app. left. apply in_or_app. right.
    unfold callbackTrace. repeat (first [left; reflexivity | right]).
  - apply processUpdates_with_handler, Hh.
  - intros u later. rewrite !processUpdates_with_handler by exact Hh.
    unfold traceOf, thrownErrors. cbn [snd flat_map].
    rewrite app_nil_r, map_app. reflexivity.
Qed.

End DispatchFacts.

(** * Further properties of the drain *)

Lemma clearOldMessages_count :
  forall answers offset,
    List.length (fst (clearOldMessages answers offset)) = S (leadingNonEmpty answers).
Proof.
  induction answers as [|[updates|reason] later IH]; intros offset; cbn; auto.
  destruct updates as [|u us]; cbn; auto.
  specialize (IH (R_add 1 (update_id (last us u)))).
  destruct (clearOldMessages later (R_add 1 (update_id (last us u)))) as [t r].
  cbn in *. rewrite IH. reflexivity.
Qed.

Lemma leadingNonEmpty_batches :
  forall batches rest,
    Forall nonEmpty batches ->
    (forall u us later, rest <> Resolves (u :: us) :: later) ->
    leadingNonEmpty (map Resolves batches ++ rest) = List.length batches.
Proof.
  induction batches as [|batch batches IH]; intros rest Hne Hrest.
  - cbn. destruct rest as [|[[|u us]|reason] later]; auto.
    exfalso. apply (Hrest u us later). reflexivity.
  - inversion Hne as [|? ? Hb Hbs]; subst.
    destruct batch as [|u us]; [contradiction Hb; reflexivity|].
    cbn. rewrite (IH rest Hbs Hrest). reflexivity.
Qed.

Lemma drain_rejected_after :
  forall batches reason rest offset,
    Forall nonEmpty batches ->
    snd (clearOldMessages (map Resolves batches ++ Rejects reason :: rest) offset) =
    Rejected reason.
Proof.
  induction batches as [|batch batches IH]; intros reason rest offset Hne.
  - reflexivity.
  - inversion Hne as [|? ? Hb Hbs]; subst.
    destruct (nonEmpty_offsetAfter batch Hb) as [next Hnext].
    cbn [map app]. rewrite clearOldMessages_step with (next := next) by exact Hnext.
    cbn [snd]. apply IH. exact Hbs.
Qed.

Lemma drain_rejected_inv :
  forall answers offset reason,
    snd (clearOldMessages answers offset) = Rejected reason ->
    exists batches rest,
      answers = map Resolves batches ++ Rejects reason :: rest /\ Forall nonEmpty batches.
Proof.
  induction answers as [|[updates|err] later IH]; intros offset reason H; cbn in H;
    try discriminate.
  - destruct updates as [|u us]; [discriminate|].
    destruct (clearOldMessages later (R_add 1 (update_id (last us u)))) as [t r] eqn:E.
    cbn in H. subst r.
    destruct (IH (R_add 1 (update_id (last us u))) reason) as (bs & rest & -> & Hne).
    + rewrite E; reflexivity.
    + exists ((u :: us) :: bs), rest. split; [reflexivity|].
      constructor; [discriminate|exact Hne].
  - injection H as ->. exists [], later. split; [reflexivity|constructor].
Qed.

Lemma drain_pending_inv :
  forall answers offset,
    snd (clearOldMessages answers offset) = Pending ->
    exists batches, answers = map Resolves batches /\ Forall nonEmpty batches.
Proof.
  induction answers as [|[updates|err] later IH]; intros offset H; cbn in H;
    try discriminate.
  - exists []. split; [reflexivity|constructor].
  - destruct updates as [|u us]; [discriminate|].
    destruct (clearOldMessages later (R_add 1 (update_id (last us u)))) as [t r] eqn:E.
    cbn in H. subst r.
    destruct (IH (R_add 1 (update_id (last us u)))) as (bs & -> & Hne).
    + rewrite E; reflexivity.
    + exists ((u :: us) :: bs). split; [reflexivity|].
      constructor; [discriminate|exact Hne].
Qed.

(** X2: for every list of answers, [clearOldMessages] issues one fetch per
    leading non-empty batch and one more.  It rejects exactly when the
    answer after the leading non-empty batches is a rejection, and then with
    that reason; it stays pending exactly when every answer so far is a
    non-empty batch.  The size of a batch plays no part: a batch shorter
    than [limit] is followed by a further fetch like a full one. *)
Theorem drain_outcome_and_fetch_count :
  forall answers offset,
    List.length (fst (clearOldMessages answers offset)) = S (leadingNonEmpty answers) /\
    (forall reason,
       snd (clearOldMessages answers offset) = Rejected reason <->
       exists batches rest,
         answers = map Resolves batches ++ Rejects reason :: rest /\
         Forall nonEmpty batches) /\
    (snd (clearOldMessages answers offset) = Pending <->
     exists batches, answers = map Resolves batches /\ Forall nonEmpty batches) /\
    (forall batches rest,
       Forall nonEmpty batches ->
       (forall u us later, rest <> Resolves (u :: us) :: later) ->
       List.length (fst (clearOldMessages (map Resolves batches ++ rest) offset)) =
       S (List.length batches)).
Proof.
  intros answers offset.
  split; [apply clearOldMessages_count|]. split; [|split].
  - intros reason. split.
    + apply drain_rejected_inv.
    + intros (bs & rest & -> & Hne). apply drain_rejected_after, Hne.
  - split.
    + apply drain_pending_inv.
    + intros (bs & -> & Hne). apply (drain_without_empty bs offset Hne).
  - intros batches rest Hne Hrest.
    rewrite clearOldMessages_count, (leadingNonEmpty_batches batches rest Hne Hrest).
    reflexivity.
Qed.

(** The fetch after a batch carries the id of its last update plus 1,
    whatever follows. *)
Lemma drain_offset_after :
  forall before batch rest offset,
    Forall nonEmpty before ->
    nonEmpty batch ->
    exists u,
      R_last batch = Some u /\
      nth_error
        (fetchOffsets
           (fst (clearOldMessages (map Resolves before ++ Resolves batch :: rest) offset)))
        (S (List.length before)) = Some (update_id u + 1)%Z.
Proof.
  induction before as [|b before IH]; intros batch rest offset Hne Hb.
  - destruct batch as [|u us]; [contradiction Hb; reflexivity|].
    exists (last us u). split; [reflexivity|].
    cbn [map app List.length].
    rewrite clearOldMessages_step with (next := R_add 1 (update_id (last us u)))
      by reflexivity.
    cbn [fst fetchOffsets].
    etransitivity; [apply clearOldMessages_first_offset|].
    unfold R_add. f_equal. lia.
  - inversion Hne as [|? ? Hb0 Hbs]; subst.
    destruct (nonEmpty_offsetAfter b Hb0) as [next Hnext].
    destruct (IH batch rest next Hbs Hb) as (u & Hlast & Hnth).
    exists u. split; [exact Hlast|].
    cbn [map app List.length].
    rewrite clearOldMessages_step with (next := next) by exact Hnext.
    cbn [fst fetchOffsets]. exact Hnth.
Qed.

Lemma sorted_around :
  forall (l1 l2 : list Z) (x : Z),
    StronglySorted Z.lt (l1 ++ x :: l2) ->
    Forall (fun y => (y < x)%Z) l1 /\ Forall (fun y => (x < y)%Z) l2.
Proof.
  induction l1 as [|a l1 IH]; intros l2 x H.
  - cbn in H. inversion H; subst. split; [constructor|assumption].
  - cbn in H. inversion H as [|? ? Hs Hall]; subst.
    destruct (IH l2 x Hs) as [H1 H2]. split; [|exact H2].
    constructor; [|exact H1].
    rewrite Forall_forall in Hall. apply Hall. apply in_or_app. right. left. reflexivity.
Qed.

Lemma R_last_split :
  forall (batch : list Update) u,
    R_last batch = Some u -> exists front, batch = front ++ [u].
Proof.
  intros [|x rest] u H; [discriminate|]. cbn in H. injection H as <-.
  exists (removelast (x :: rest)).
  assert (E : last rest x = last (x :: rest) x) by (destruct rest; reflexivity).
  rewrite E. apply app_removelast_last. discriminate.
Qed.

(** X3: when the ids of the backlog increase strictly in the order the
    batches deliver them, the offset of the fetch that follows a batch is
    greater than every id fetched up to and including that batch, and not
    greater than any id of the batches that follow: the drain asks again for
    nothing it has received and skips nothing it has not. *)
Theorem drain_acknowledges_what_it_fetched :
  forall before batch after later offset,
    Forall nonEmpty (before ++ batch :: after) ->
    StronglySorted Z.lt (backlogIds (before ++ batch :: after)) ->
    exists next,
      nth_error
        (fetchOffsets
           (fst (clearOldMessages (map Resolves (before ++ batch :: after) ++ later)
                                  offset)))
        (S (List.length before)) = Some next /\
      Forall (fun id => (id < next)%Z) (backlogIds (before ++ [batch])) /\
      Forall (fun id => (next <= id)%Z) (backlogIds after).
Proof.
  intros before batch after later offset Hne Hsorted.
  apply Forall_app in Hne as [Hbefore Hrest].
  inversion Hrest as [|? ? Hbatch Hafter]; subst.
  rewrite map_app, <- app_assoc. cbn [map app].
  destruct (drain_offset_after before batch (map Resolves after ++ later) offset
              Hbefore Hbatch) as (u & Hlast & Hnth).
  exists (update_id u + 1)%Z. split; [exact Hnth|].
  destruct (R_last_split batch u Hlast) as (front & ->).
  unfold backlogIds in *.
  rewrite concat_app in Hsorted. cbn [List.concat] in Hsorted.
  rewrite <- !app_assoc in Hsorted. cbn [app] in Hsorted.
  rewrite app_assoc, map_app in Hsorted. cbn [map] in Hsorted.
  destruct (sorted_around _ _ _ Hsorted) as [Hlow Hhigh].
  split.
  - rewrite concat_app. cbn [List.concat]. rewrite app_nil_r, app_assoc, map_app.
    cbn [map]. apply Forall_app. split.
    + eapply Forall_impl; [|exact Hlow]. cbn. intros; lia.
    + constructor; [lia|constructor].
  - eapply Forall_impl; [|exact Hhigh]. cbn. intros; lia.
Qed.

(** * Further properties of the startup chain *)

Lemma forallb_excludes :
  forall (p q : Event -> bool) (t : Trace),
    (forall e, p e = true -> q e = false) ->
    forallb p t = true -> existsb q t = false.
Proof.
  intros p q t Hpq. induction t as [|e t IH]; intros H; [reflexivity|].
  cbn in H. apply andb_true_iff in H as [He Ht].
  cbn. rewrite (Hpq e He), (IH Ht). reflexivity.
Qed.

Lemma Promise_all_second_rejected :
  forall (A B : Type) first (a : outcome A) (b : outcome B) reason,
    b = Rejected reason ->
    (exists err, Promise_all first a b = Rejected err) /\
    (forall x, a = Fulfilled x -> Promise_all first a b = Rejected reason).
Proof.
  intros A B first a b reason ->. split.
  - destruct a as [x|e|]; cbn; eauto.
  - intros x ->. reflexivity.
Qed.

(** X4: a failure of the second task is as fatal as one of [getMe].  If
    the drain (with [skipOldMessages]) or [sleep(1000)] (without) rejects,
    [tgBot.ready] is rejected, with that reason when [getMe] was fulfilled;
    no command or right is registered, nothing is installed on the bot, its
    context and error handler stay as they were, and [startPolling] is
    never called. *)
Theorem second_task_failure_is_fatal :
  forall rt logger tgBot dcBot messageMap bridgeMap settings w reason,
    (if skipOldMessages settings
     then snd (clearOldMessages (getUpdates_answers tgBot) defaultOffset)
     else sleep_answer rt) = Rejected reason ->
    let run := setup rt logger tgBot dcBot messageMap bridgeMap settings w in
    (exists err, resultOf run = Rejected err) /\
    (forall me, getMe_answer tgBot = Fulfilled me -> resultOf run = Rejected reason) /\
    existsb isRegistration (traceOf run) = false /\
    installs (traceOf run) = [] /\
    tgMiddleware (worldOf run) = tgMiddleware w /\
    tgContext (worldOf run) = tgContext w /\
    tgErrorHandler (worldOf run) = tgErrorHandler w /\
    ~ In StartPolling (traceOf run).
Proof.
  intros rt lg tgBot dc mm bm st w reason Hsecond run.
  change (secondOutcome tgBot rt st = Rejected reason) in Hsecond.
  destruct (Promise_all_second_rejected Me unit (getMeSettlesFirst rt) (getMe_answer tgBot)
              (secondOutcome tgBot rt st) reason Hsecond) as ((err & Herr) & Hme).
  destruct (startup_calls_facts _ (startupTrace_startup tgBot st)) as (Hp & Hi & Hr).
  unfold run. rewrite setup_run.
  split; [|split].
  - exists err. rewrite Herr. reflexivity.
  - intros identity Hidentity. rewrite (Hme identity Hidentity). reflexivity.
  - rewrite Herr. unfold resultOf, worldOf, traceOf.
    cbn [fst snd subscribed tgMiddleware tgContext tgErrorHandler].
    repeat split; auto using no_polling_not_In.
Qed.

(** X5: what [setup] installs on the bot is all or nothing.  In every run
    the listener is added after the listeners there were.  Either the ready
    step has run: then the context holds the identity [getMe] returned and
    the five arguments of [setup] with an empty anti-spam set and an empty
    group map, the whole pipeline follows the handlers there were, the
    error handler is the logging one whatever it was before, the two
    commands and both default rights were sent, and [startPolling] was
    called.  Or it has not: then context, stack and error handler are
    untouched, nothing was registered, [startPolling] was not called and
    [tgBot.ready] is not fulfilled. *)
Theorem setup_installs_all_or_nothing :
  forall rt logger tgBot dcBot messageMap bridgeMap settings w,
    let run := setup rt logger tgBot dcBot messageMap bridgeMap settings w in
    settingsListeners (worldOf run) =
      settingsListeners w ++ [("bridgeUpdate", AssignBridgeMap)] /\
    ((readyStepHasRun rt tgBot settings = true /\
      (exists identity,
         getMe_answer tgBot = Fulfilled identity /\
         tgContext (worldOf run) =
           Some (mkTediCross identity bridgeMap dcBot settings messageMap logger [] [])) /\
      tgMiddleware (worldOf run) = tgMiddleware w ++ pipeline /\
      tgErrorHandler (worldOf run) = Some LogTheError /\
      In (SetMyCommands myCommands "default") (traceOf run) /\
      In (SetMyDefaultAdministratorRights defaultPermissions false) (traceOf run) /\
      In (SetMyDefaultAdministratorRights defaultPermissions true) (traceOf run) /\
      In StartPolling (traceOf run) /\
      resultOf run = startPolling_answer tgBot) \/
     (readyStepHasRun rt tgBot settings = false /\
      tgContext (worldOf run) = tgContext w /\
      tgMiddleware (worldOf run) = tgMiddleware w /\
      tgErrorHandler (worldOf run) = tgErrorHandler w /\
      existsb isRegistration (traceOf run) = false /\
      installs (traceOf run) = [] /\
      ~ In StartPolling (traceOf run) /\
      isFulfilled (resultOf run) = false)).
Proof.
  intros rt lg tgBot dc mm bm st w run.
  unfold run. rewrite setup_run, readyStepHasRun_Promise_all.
  destruct (startup_calls_facts _ (startupTrace_startup tgBot st)) as (Hp & Hi & Hr).
  destruct (Promise_all _ _ _) as [both|reason|] eqn:Hall.
  - split; [reflexivity|]. left.
    apply Promise_all_fulfilled in Hall as [Hme _].
    unfold resultOf, worldOf, traceOf. cbn [fst snd].
    split; [reflexivity|]. split; [exists (fst both); split; [exact Hme|reflexivity]|].
    split; [reflexivity|]. split; [reflexivity|].
    assert (Hin : forall e, In e (callbackTrace (fst both)) ->
                    In e (startupTrace tgBot st ++ callbackTrace (fst both) ++
                          StartPolling :: flat_map (runDetached tgBot rt) detachedChains)).
    { intros e He. apply in_or_app. right. apply in_or_app. left. exact He. }
    split; [apply Hin; right; left; reflexivity|].
    split; [apply Hin; right; right; left; reflexivity|].
    split; [apply Hin; right; right; right; left; reflexivity|].
    split; [|reflexivity].
    apply in_or_app. right. apply in_or_app. right. left. reflexivity.
  - split; [reflexivity|]. right.
    unfold resultOf, worldOf, traceOf. cbn [fst snd subscribed tgContext tgMiddleware
                                              tgErrorHandler isFulfilled].
    repeat split; auto using no_polling_not_In.
  - split; [reflexivity|]. right.
    unfold resultOf, worldOf, traceOf. cbn [fst snd subscribed tgContext tgMiddleware
                                              tgErrorHandler isFulfilled].
    repeat split; auto using no_polling_not_In.
Qed.

Lemma afterSetRights_detached :
  forall tgBot forChannels,
    forallb isDetachedCall (afterSetRights tgBot forChannels) = true.
Proof.
  intros tgBot forChannels. unfold afterSetRights.
  destruct (setMyDefaultAdministratorRights_answer tgBot forChannels); reflexivity.
Qed.

Lemma afterSetRights_no_verification :
  forall tgBot forChannels,
    existsb isVerificationCall (afterSetRights tgBot forChannels) = false.
Proof.
  intros tgBot forChannels. unfold afterSetRights.
  destruct (setMyDefaultAdministratorRights_answer tgBot forChannels); reflexivity.
Qed.

(** X6: the answers to [setMyCommands] and to the two
    [setMyDefaultAdministratorRights] calls change neither the state of
    [tgBot.ready], nor what [setup] leaves installed, nor any call up to
    and including [startPolling].  No run of [setup] ever calls
    [logger.error]: a rejected registration is an unhandled rejection, not
    a log entry.  Unless [setMyCommands] is fulfilled, no timer is set and
    the commands are never fetched again. *)
Theorem registration_outcomes_leave_startup_untouched :
  forall rt logger tgBot dcBot messageMap bridgeMap settings w commandsSet rightsSet,
    let run := setup rt logger tgBot dcBot messageMap bridgeMap settings w in
    let run' := setup rt logger (withRegistration commandsSet rightsSet tgBot) dcBot
                      messageMap bridgeMap settings w in
    resultOf run' = resultOf run /\
    worldOf run' = worldOf run /\
    untilPolling (traceOf run') = untilPolling (traceOf run) /\
    existsb isLoggerError (traceOf run') = false /\
    (isFulfilled commandsSet = false ->
     existsb isVerificationCall (traceOf run') = false) /\
    (readyStepHasRun rt tgBot settings = true ->
     (forall reason, commandsSet = Rejected reason ->
        In (UnhandledRejection reason) (afterPolling (traceOf run'))) /\
     (forall forChannels reason, rightsSet forChannels = Rejected reason ->
        In (UnhandledRejection reason) (afterPolling (traceOf run')))).
Proof.
  intros rt lg tgBot dc mm bm st w commandsSet rightsSet run run'.
  unfold run, run'.
  rewrite !setup_result, !setup_world, !setup_trace.
  change (secondOutcome (withRegistration commandsSet rightsSet tgBot) rt st)
    with (secondOutcome tgBot rt st).
  change (startupTrace (withRegistration commandsSet rightsSet tgBot) st)
    with (startupTrace tgBot st).
  change (getMe_answer (withRegistration commandsSet rightsSet tgBot))
    with (getMe_answer tgBot).
  change (startPolling_answer (withRegistration commandsSet rightsSet tgBot))
    with (startPolling_answer tgBot).
  rewrite readyStepHasRun_Promise_all.
  set (tg' := withRegistration commandsSet rightsSet tgBot).
  pose proof (startupTrace_startup tgBot st) as Hstartup.
  pose proof (detached_calls tg' rt) as Hdetached.
  split; [reflexivity|]. split; [reflexivity|].
  destruct (Promise_all _ _ _) as [both|reason|].
  - split; [|split; [|split]].
    + rewrite !app_assoc.
      rewrite !untilPolling_at by apply callback_then_polling. reflexivity.
    + rewrite !existsb_app. cbn [existsb isLoggerError orb].
      rewrite (forallb_excludes isStartupCall isLoggerError (startupTrace tgBot st)) by
        (try exact Hstartup; intros []; cbn; congruence).
      change (existsb isLoggerError (callbackTrace (fst both))) with false.
      rewrite (forallb_excludes isDetachedCall isLoggerError
                 (flat_map (runDetached tg' rt) detachedChains)) by
        (try exact Hdetached; intros []; cbn; congruence).
      reflexivity.
    + intros Hnot. rewrite !existsb_app. cbn [existsb isVerificationCall orb].
      rewrite (forallb_excludes isStartupCall isVerificationCall (startupTrace tgBot st)) by
        (try exact Hstartup; intros []; cbn; congruence).
      change (existsb isVerificationCall (callbackTrace (fst both))) with false.
      cbn [orb]. unfold detachedChains. cbn [flat_map runDetached].
      rewrite !existsb_app, !afterSetRights_no_verification.
      unfold verifyCommands. cbn [setMyCommands_answer tg' withRegistration].
      destruct commandsSet; [discriminate Hnot|reflexivity|reflexivity].
    + intros _.
      rewrite app_assoc, afterPolling_at by apply callback_then_polling.
      unfold detachedChains. cbn [flat_map runDetached]. split.
      * intros err ->. apply in_or_app. left. left. reflexivity.
      * intros forChannels err Hrights.
        apply in_or_app. right.
        assert (Hin : In (UnhandledRejection err) (afterSetRights tg' forChannels)).
        { unfold afterSetRights.
          cbn [setMyDefaultAdministratorRights_answer tg' withRegistration].
          rewrite Hrights. left. reflexivity. }
        destruct forChannels; apply in_or_app; [right|left]; [|exact Hin].
        rewrite app_nil_r. exact Hin.
  - split; [reflexivity|]. split; [|split; [|discriminate]].
    + apply (forallb_excludes isStartupCall isLoggerError); [|exact Hstartup].
      intros []; cbn; congruence.
    + intros _. apply (forallb_excludes isStartupCall isVerificationCall); [|exact Hstartup].
      intros []; cbn; congruence.
  - split; [reflexivity|]. split; [|split; [|discriminate]].
    + apply (forallb_excludes isStartupCall isLoggerError); [|exact Hstartup].
      intros []; cbn; congruence.
    + intros _. apply (forallb_excludes isStartupCall isVerificationCall); [|exact Hstartup].
      intros []; cbn; congruence.
Qed.

(** After the ready step a notification yields exactly the world whose
    context holds the new table. *)
Lemma emit_with_context :
  forall w tc newBridgeMap,
    tgContext w = Some tc ->
    In ("bridgeUpdate", AssignBridgeMap) (settingsListeners w) ->
    settings_emit "bridgeUpdate" newBridgeMap w =
    inr (mkWorld (Some (setBridgeMap newBridgeMap tc)) (tgMiddleware w)
                 (tgErrorHandler w) (settingsListeners w)).
Proof.
  intros w tc nb Hctx Hin. unfold settings_emit.
  destruct (emitTo_with_context (settingsListeners w) nb w tc Hctx)
    as (w' & -> & Hm & Hh & Hl & _ & Hnew).
  specialize (Hnew Hin). destruct w' as [c m h l]. cbn in *. subst. reflexivity.
Qed.

(** X7: after the ready step, notifications compose by overwriting: the
    world after a notification with table [first] followed by one with
    table [second] is the world after the one with [second] alone, so
    nothing of [first] remains; a notification repeated changes nothing
    more. *)
Theorem later_bridgeUpdate_overwrites_earlier :
  forall rt logger tgBot dcBot messageMap bridgeMap settings w first second,
    readyStepHasRun rt tgBot settings = true ->
    let ready := worldOf (setup rt logger tgBot dcBot messageMap bridgeMap settings w) in
    exists w1 w2,
      settings_emit "bridgeUpdate" first ready = inr w1 /\
      settings_emit "bridgeUpdate" second w1 = inr w2 /\
      settings_emit "bridgeUpdate" second ready = inr w2 /\
      settings_emit "bridgeUpdate" second w2 = inr w2 /\
      pipelineBridgeMap w1 = Some first /\
      pipelineBridgeMap w2 = Some second.
Proof.
  intros rt lg tgBot dc mm bm st w first second Hready ready.
  unfold ready. rewrite setup_world.
  rewrite readyStepHasRun_Promise_all in Hready.
  destruct (Promise_all _ _ _) as [both|reason|]; try discriminate Hready.
  set (tc := mkTediCross (fst both) bm dc st mm lg [] []).
  assert (Hin : In ("bridgeUpdate", AssignBridgeMap)
                   (settingsListeners (installed tc (subscribed w)))).
  { cbn. apply in_or_app. right. left. reflexivity. }
  set (w0 := installed tc (subscribed w)) in *.
  set (after := fun table =>
         mkWorld (Some (setBridgeMap table tc)) (tgMiddleware w0) (tgErrorHandler w0)
                 (settingsListeners w0)).
  exists (after first), (after second).
  split; [apply (emit_with_context w0 tc first eq_refl Hin)|].
  split; [apply (emit_with_context (after first) (setBridgeMap first tc) second
                   eq_refl Hin)|].
  split; [apply (emit_with_context w0 tc second eq_refl Hin)|].
  split; [apply (emit_with_context (after second) (setBridgeMap second tc) second
                   eq_refl Hin)|].
  split; reflexivity.
Qed.

(** * Runs observed for longer *)

Lemma clearOldMessages_head :
  forall answers offset,
    exists rest, fst (clearOldMessages answers offset) = fetchCall offset :: rest.
Proof.
  intros [|[[|u us]|reason] later] offset; unfold fetchCall; cbn;
    try (eexists; reflexivity).
  destruct (clearOldMessages later (R_add 1 (update_id (last us u)))).
  eexists; reflexivity.
Qed.

(** X8: answers that arrive later never change the calls already made.  The
    trace of the drain on a list of answers is a prefix of its trace on any
    extension of that list; once the promise has settled on the shorter
    list, neither the trace nor the outcome changes with what follows. *)
Theorem drain_trace_extends :
  forall answers more offset,
    exists rest,
      fst (clearOldMessages (answers ++ more) offset) =
        fst (clearOldMessages answers offset) ++ rest /\
      (snd (clearOldMessages answers offset) <> Pending ->
       rest = [] /\
       snd (clearOldMessages (answers ++ more) offset) =
         snd (clearOldMessages answers offset)).
Proof.
  induction answers as [|[updates|reason] later IH]; intros more offset.
  - destruct (clearOldMessages_head more offset) as (rest & Hrest).
    exists rest. cbn [app]. rewrite Hrest. split; [reflexivity|].
    intros H. contradiction H. reflexivity.
  - destruct updates as [|u us].
    + exists []. cbn. auto.
    + destruct (IH more (R_add 1 (update_id (last us u)))) as (rest & Htrace & Hsettled).
      exists rest. cbn [app].
      rewrite !clearOldMessages_step with (next := R_add 1 (update_id (last us u)))
        by reflexivity.
      cbn [fst snd app]. rewrite Htrace. split; [reflexivity|exact Hsettled].
  - exists []. cbn. auto.
Qed.

End Setup.

(** * Concrete runs *)

(** Two full batches and an empty one: three fetches, at offsets -1, 101
    and 201. *)
Lemma drain_full_batches_witness :
  snd (clearOldMessages (map Resolves [fullBatch 1; fullBatch 101] ++ [Resolves []])
                        defaultOffset) = Fulfilled tt /\
  fetchOffsets (fst (clearOldMessages (map Resolves [fullBatch 1; fullBatch 101] ++
                                       [Resolves []]) defaultOffset)) =
  [-1; 101; 201]%Z.
Proof.
  destruct (drain_full_batches_fetches_and_offsets [fullBatch 1; fullBatch 101]
              defaultOffset) as (Hres & _).
  - repeat constructor.
  - split; [exact Hres|reflexivity].
Defined.

(** Two non-empty batches, then an empty one, then more: three fetches and
    the promise resolves. *)
Lemma drain_ends_witness :
  Forall nonEmpty [[mkUpdate 5 [] None]; [mkUpdate 6 [] None; mkUpdate 9 [] None]] /\
  snd (clearOldMessages
         (map Resolves [[mkUpdate 5 [] None]; [mkUpdate 6 [] None; mkUpdate 9 [] None]] ++
          Resolves [] :: [Resolves [mkUpdate 12 [] None]]) defaultOffset) = Fulfilled tt /\
  List.length
    (fst (clearOldMessages
            (map Resolves [[mkUpdate 5 [] None]; [mkUpdate 6 [] None; mkUpdate 9 [] None]] ++
             Resolves [] :: [Resolves [mkUpdate 12 [] None]]) defaultOffset)) = 3%nat.
Proof.
  assert (Hne : Forall nonEmpty
                  [[mkUpdate 5 [] None]; [mkUpdate 6 [] None; mkUpdate 9 [] None]]).
  { repeat constructor; discriminate. }
  split; [exact Hne|].
  destruct (drain_ends_exactly_at_first_empty_batch _ [Resolves [mkUpdate 12 [] None]]
              defaultOffset Hne) as ((Hres & _ & Hlen & _) & _).
  split; [exact Hres|exact Hlen].
Defined.

(** A run with a backlog of two full batches: polling starts after the
    three fetches and the 22 registrations. *)
Lemma polling_order_witness :
  traceOf (@setup nat unit unit unit unit sampleRuntime tt
             (sampleTelegram (Fulfilled sampleMe) (Fulfilled myCommands)) tt tt 1%nat
             (mkSettings true) freshWorld) =
    (SettingsOn "bridgeUpdate" :: GetMe ::
     [fetchCall (-1); fetchCall 101; fetchCall 201] ++ callbackTrace sampleMe) ++
    StartPolling ::
    [SetTimeout 5000; GetMyCommands;
     LoggerInfo [LogText "Telegram commands:"; LogCommands myCommands]] /\
  installs (SettingsOn "bridgeUpdate" :: GetMe ::
            [fetchCall (-1); fetchCall 101; fetchCall 201] ++ callbackTrace sampleMe) =
    pipeline.
Proof.
  assert (H : traceOf (@setup nat unit unit unit unit sampleRuntime tt
                (sampleTelegram (Fulfilled sampleMe) (Fulfilled myCommands)) tt tt 1%nat
                (mkSettings true) freshWorld) =
              (SettingsOn "bridgeUpdate" :: GetMe ::
               [fetchCall (-1); fetchCall 101; fetchCall 201] ++ callbackTrace sampleMe) ++
              StartPolling ::
              [SetTimeout 5000; GetMyCommands;
               LoggerInfo [LogText "Telegram commands:"; LogCommands myCommands]]).
  { vm_compute. reflexivity. }
  split; [exact H|].
  destruct (polling_starts_after_drain_and_installation _ _ _ _ _ _ _ _ _ _ H)
    as (_ & _ & Hinstalls & _).
  exact Hinstalls.
Defined.

(** [getMe] rejects while the drain goes through: no polling. *)
Lemma identity_failure_witness :
  ~ In StartPolling
      (traceOf (@setup nat unit unit unit unit sampleRuntime tt
                  (sampleTelegram (Rejected (Err "401: Unauthorized")) Pending) tt tt 1%nat
                  (mkSettings true) freshWorld)) /\
  resultOf (@setup nat unit unit unit unit sampleRuntime tt
              (sampleTelegram (Rejected (Err "401: Unauthorized")) Pending) tt tt 1%nat
              (mkSettings true) freshWorld) = Rejected (Err "401: Unauthorized").
Proof.
  destruct (@identity_failure_is_fatal nat unit unit unit unit sampleRuntime tt
              (sampleTelegram (Rejected (Err "401: Unauthorized")) Pending) tt tt 1%nat
              (mkSettings true) freshWorld (Err "401: Unauthorized") eq_refl)
    as (_ & _ & _ & _ & _ & _ & Hpolling).
  split; [exact Hpolling|reflexivity].
Defined.

(** Both tasks start whatever the other does: with [getMe] pending the
    drain still runs to its end. *)
Lemma concurrent_start_witness :
  traceOf (@setup nat unit unit unit unit sampleRuntime tt
             (sampleTelegram Pending Pending) tt tt 1%nat (mkSettings true) freshWorld) =
  [SettingsOn "bridgeUpdate"; GetMe; fetchCall (-1); fetchCall 101; fetchCall 201].
Proof.
  destruct (@identity_request_and_second_task_are_concurrent nat unit unit unit unit
              sampleRuntime tt (sampleTelegram Pending Pending) tt tt 1%nat
              (mkSettings true) freshWorld) as (_ & Hidle).
  rewrite (Hidle eq_refl). reflexivity.
Defined.

(** The check on a second fetch that returns the two registered commands. *)
Lemma command_check_witness :
  exists rights,
    afterPolling
      (traceOf (@setup nat unit unit unit unit sampleRuntime tt
                  (withGetMyCommands (Fulfilled myCommands)
                     (sampleTelegram (Fulfilled sampleMe) Pending)) tt tt 1%nat
                  (mkSettings true) freshWorld)) =
    SetTimeout 5000 :: GetMyCommands :: commandCheck (Fulfilled myCommands) ++ rights.
Proof.
  destruct (@command_check_leaves_startup_untouched nat unit unit unit unit sampleRuntime tt
              (sampleTelegram (Fulfilled sampleMe) Pending) tt tt 1%nat
              (mkSettings true) freshWorld (Fulfilled myCommands))
    as (_ & _ & _ & _ & _ & Hcheck).
  exact (Hcheck eq_refl eq_refl eq_refl).
Defined.

(** The stack a complete run leaves on a fresh bot. *)
Lemma installed_pipeline_witness :
  readyStepHasRun sampleRuntime (sampleTelegram (Fulfilled sampleMe) Pending)
                  (mkSettings true) = true /\
  tgMiddleware
    (worldOf (@setup nat unit unit unit unit sampleRuntime tt
                (sampleTelegram (Fulfilled sampleMe) Pending) tt tt 1%nat
                (mkSettings true) freshWorld)) = pipeline.
Proof.
  split; [reflexivity|].
  destruct (@pipeline_has_no_per_command_filter nat unit unit unit unit sampleRuntime tt
              (sampleTelegram (Fulfilled sampleMe) Pending) tt tt 1%nat
              (mkSettings true) freshWorld eq_refl) as (Hstack & _).
  exact Hstack.
Defined.

(** A notification after the ready step. *)
Lemma bridgeUpdate_after_ready_witness :
  readyStepHasRun sampleRuntime (sampleTelegram (Fulfilled sampleMe) Pending)
                  (mkSettings true) = true /\
  exists w',
    settings_emit "bridgeUpdate" 2%nat
      (worldOf (@setup nat unit unit unit unit sampleRuntime tt
                  (sampleTelegram (Fulfilled sampleMe) Pending) tt tt 1%nat
                  (mkSettings true) freshWorld)) = inr w' /\
    pipelineBridgeMap w' = Some 2%nat.
Proof.
  split; [reflexivity|].
  destruct (@bridgeUpdate_after_ready_swaps_table nat unit unit unit unit sampleRuntime tt
              (sampleTelegram (Fulfilled sampleMe) Pending) tt tt 1%nat
              (mkSettings true) freshWorld 2%nat eq_refl)
    as (_ & tc & w' & _ & Hemit & _ & Hmap & _).
  exists w'. split; [exact Hemit|exact Hmap].
Defined.

(** A notification while [getMe] is pending. *)
Lemma early_bridgeUpdate_witness :
  readyStepHasRun sampleRuntime (sampleTelegram Pending Pending) (mkSettings true) = false /\
  exists msg,
    settings_emit "bridgeUpdate" 2%nat
      (worldOf (@setup nat unit unit unit unit sampleRuntime tt
                  (sampleTelegram Pending Pending) tt tt 1%nat (mkSettings true)
                  freshWorld)) = inl (TypeError msg).
Proof.
  split; [reflexivity|].
  destruct (@early_bridgeUpdate_throws nat unit unit unit unit sampleRuntime tt
              (sampleTelegram Pending Pending) tt tt 1%nat (mkSettings true)
              freshWorld 2%nat eq_refl) as (_ & _ & Hthrows).
  destruct (Hthrows eq_refl) as (_ & Hemit).
  exact Hemit.
Defined.

(** A stage that throws on every text message: both errors are logged. *)
Lemma stage_errors_witness :
  processUpdates
    (fun h (_ : unit) => match h with
                         | addTextObj => Throws (Err "no text")
                         | _ => CallsNext tt
                         end)
    (fun _ => tt)
    [textMessage 1 None; textMessage 2 (Some "start")]
    (worldOf (@setup nat unit unit unit unit sampleRuntime tt
                (sampleTelegram (Fulfilled sampleMe) Pending) tt tt 1%nat
                (mkSettings true) freshWorld)) =
  (Running,
   worldOf (@setup nat unit unit unit unit sampleRuntime tt
              (sampleTelegram (Fulfilled sampleMe) Pending) tt tt 1%nat
              (mkSettings true) freshWorld),
   [LoggerError (Err "no text"); LoggerError (Err "no text")]).
Proof.
  destruct (@stage_errors_are_logged_and_processing_continues nat unit unit unit unit
              (fun h (_ : unit) => match h with
                                   | addTextObj => Throws (Err "no text")
                                   | _ => CallsNext tt
                                   end)
              (fun _ => tt)
              sampleRuntime tt (sampleTelegram (Fulfilled sampleMe) Pending) tt tt 1%nat
              (mkSettings true) freshWorld
              [textMessage 1 None; textMessage 2 (Some "start")] eq_refl)
    as (_ & _ & Hrun & _).
  rewrite Hrun. reflexivity.
Defined.

(** Answers of mixed sizes ending in a rejection: one fetch per batch and
    one more, whatever the sizes. *)
Lemma drain_count_witness :
  List.length
    (fst (clearOldMessages
            (map Resolves [[mkUpdate 5 [] None]; fullBatch 6] ++
             [Rejects (Err "502: Bad Gateway")]) defaultOffset)) = 3%nat.
Proof.
  destruct (drain_outcome_and_fetch_count
              (map Resolves [[mkUpdate 5 [] None]; fullBatch 6] ++
               [Rejects (Err "502: Bad Gateway")]) defaultOffset)
    as (_ & _ & _ & Hcount).
  apply (Hcount [[mkUpdate 5 [] None]; fullBatch 6] [Rejects (Err "502: Bad Gateway")]).
  - repeat constructor; discriminate.
  - discriminate.
Defined.

(** Ids 1, 2, 5 and 9 in three batches: the fetch after the second batch
    is at offset 6. *)
Lemma drain_acknowledges_witness :
  Forall nonEmpty ([[mkUpdate 1 [] None; mkUpdate 2 [] None]] ++
                   [mkUpdate 5 [] None] :: [[mkUpdate 9 [] None]]) /\
  StronglySorted Z.lt
    (backlogIds ([[mkUpdate 1 [] None; mkUpdate 2 [] None]] ++
                 [mkUpdate 5 [] None] :: [[mkUpdate 9 [] None]])) /\
  exists next,
    nth_error
      (fetchOffsets
         (fst (clearOldMessages
                 (map Resolves ([[mkUpdate 1 [] None; mkUpdate 2 [] None]] ++
                                [mkUpdate 5 [] None] :: [[mkUpdate 9 [] None]]) ++ [])
                 defaultOffset))) 2 = Some next /\
    Forall (fun id => (id < next)%Z)
           (backlogIds ([[mkUpdate 1 [] None; mkUpdate 2 [] None]] ++
                        [[mkUpdate 5 [] None]])) /\
    Forall (fun id => (next <= id)%Z) (backlogIds [[mkUpdate 9 [] None]]).
Proof.
  assert (Hne : Forall nonEmpty ([[mkUpdate 1 [] None; mkUpdate 2 [] None]] ++
                                 [mkUpdate 5 [] None] :: [[mkUpdate 9 [] None]])).
  { repeat constructor; discriminate. }
  assert (Hsorted : StronglySorted Z.lt
                      (backlogIds ([[mkUpdate 1 [] None; mkUpdate 2 [] None]] ++
                                   [mkUpdate 5 [] None] :: [[mkUpdate 9 [] None]]))).
  { cbn. repeat (constructor; try reflexivity). }
  split; [exact Hne|]. split; [exact Hsorted|].
  exact (drain_acknowledges_what_it_fetched
           [[mkUpdate 1 [] None; mkUpdate 2 [] None]] [mkUpdate 5 [] None]
           [[mkUpdate 9 [] None]] [] defaultOffset Hne Hsorted).
Defined.

(** The drain fails on its second fetch while [getMe] succeeds. *)
Lemma second_task_failure_witness :
  resultOf (@setup nat unit unit unit unit sampleRuntime tt
              (mkTelegram (Fulfilled sampleMe)
                          [Resolves (fullBatch 1); Rejects (Err "502: Bad Gateway")]
                          (Fulfilled tt) Pending (fun _ => Fulfilled tt) Pending)
              tt tt 1%nat (mkSettings true) freshWorld) =
    Rejected (Err "502: Bad Gateway") /\
  ~ In StartPolling
      (traceOf (@setup nat unit unit unit unit sampleRuntime tt
                  (mkTelegram (Fulfilled sampleMe)
                              [Resolves (fullBatch 1); Rejects (Err "502: Bad Gateway")]
                              (Fulfilled tt) Pending (fun _ => Fulfilled tt) Pending)
                  tt tt 1%nat (mkSettings true) freshWorld)).
Proof.
  destruct (@second_task_failure_is_fatal nat unit unit unit unit sampleRuntime tt
              (mkTelegram (Fulfilled sampleMe)
                          [Resolves (fullBatch 1); Rejects (Err "502: Bad Gateway")]
                          (Fulfilled tt) Pending (fun _ => Fulfilled tt) Pending)
              tt tt 1%nat (mkSettings true) freshWorld (Err "502: Bad Gateway") eq_refl)
    as (_ & Hreason & _ & _ & _ & _ & _ & Hpolling).
  split; [exact (Hreason sampleMe eq_refl)|exact Hpolling].
Defined.

(** [setMyCommands] and the rights for channels are rejected: both reasons
    are reported unhandled after [startPolling], and no timer is set. *)
Lemma registration_failure_witness :
  existsb isVerificationCall
    (traceOf (@setup nat unit unit unit unit sampleRuntime tt
                (withRegistration (Rejected (Err "429: Too Many Requests"))
                   (fun forChannels => if forChannels
                                       then Rejected (Err "400: Bad Request")
                                       else Fulfilled tt)
                   (sampleTelegram (Fulfilled sampleMe) Pending))
                tt tt 1%nat (mkSettings true) freshWorld)) = false /\
  In (UnhandledRejection (Err "429: Too Many Requests"))
     (afterPolling
        (traceOf (@setup nat unit unit unit unit sampleRuntime tt
                    (withRegistration (Rejected (Err "429: Too Many Requests"))
                       (fun forChannels => if forChannels
                                           then Rejected (Err "400: Bad Request")
                                           else Fulfilled tt)
                       (sampleTelegram (Fulfilled sampleMe) Pending))
                    tt tt 1%nat (mkSettings true) freshWorld))) /\
  In (UnhandledRejection (Err "400: Bad Request"))
     (afterPolling
        (traceOf (@setup nat unit unit unit unit sampleRuntime tt
                    (withRegistration (Rejected (Err "429: Too Many Requests"))
                       (fun forChannels => if forChannels
                                           then Rejected (Err "400: Bad Request")
                                           else Fulfilled tt)
                       (sampleTelegram (Fulfilled sampleMe) Pending))
                    tt tt 1%nat (mkSettings true) freshWorld))).
Proof.
  destruct (@registration_outcomes_leave_startup_untouched nat unit unit unit unit
              sampleRuntime tt (sampleTelegram (Fulfilled sampleMe) Pending) tt tt 1%nat
              (mkSettings true) freshWorld (Rejected (Err "429: Too Many Requests"))
              (fun forChannels => if forChannels
                                  then Rejected (Err "400: Bad Request")
                                  else Fulfilled tt))
    as (_ & _ & _ & _ & Hnone & Hunhandled).
  destruct (Hunhandled eq_refl) as (Hcommands & Hrights).
  split; [exact (Hnone eq_refl)|].
  split; [exact (Hcommands _ eq_refl)|exact (Hrights true _ eq_refl)].
Defined.

(** Tables 2 and then 3 after the ready step: the pipeline reads 3. *)
Lemma later_bridgeUpdate_witness :
  readyStepHasRun sampleRuntime (sampleTelegram (Fulfilled sampleMe) Pending)
                  (mkSettings true) = true /\
  exists w1 w2,
    settings_emit "bridgeUpdate" 2%nat
      (worldOf (@setup nat unit unit unit unit sampleRuntime tt
                  (sampleTelegram (Fulfilled sampleMe) Pending) tt tt 1%nat
                  (mkSettings true) freshWorld)) = inr w1 /\
    settings_emit "bridgeUpdate" 3%nat w1 = inr w2 /\
    pipelineBridgeMap w2 = Some 3%nat.
Proof.
  split; [reflexivity|].
  destruct (@later_bridgeUpdate_overwrites_earlier nat unit unit unit unit sampleRuntime tt
              (sampleTelegram (Fulfilled sampleMe) Pending) tt tt 1%nat
              (mkSettings true) freshWorld 2%nat 3%nat eq_refl)
    as (w1 & w2 & H1 & H2 & _ & _ & _ & Hmap).
  exists w1, w2. auto.
Defined.

(** One batch seen, then a second batch and the empty one: the first two
    fetches stay, two more follow. *)
Lemma drain_extends_witness :
  snd (clearOldMessages [Resolves [mkUpdate 5 [] None]] defaultOffset) = Pending /\
  exists rest,
    fst (clearOldMessages ([Resolves [mkUpdate 5 [] None]] ++
                           [Resolves [mkUpdate 7 [] None]; Resolves []]) defaultOffset) =
    [fetchCall (-1); fetchCall 6] ++ rest.
Proof.
  split; [reflexivity|].
  destruct (drain_trace_extends [Resolves [mkUpdate 5 [] None]]
              [Resolves [mkUpdate 7 [] None]; Resolves []] defaultOffset)
    as (rest & Htrace & _).
  exists rest. exact Htrace.
Defined.

(** * Where the code departs from the specification *)

(** C2, counterexample: a second fetch that returns no command is not
    flagged through the logger; the callback throws, and the rejection is
    unhandled.  A second fetch that returns two commands other than the
    registered ones is not flagged at all. *)
Lemma command_check_throws_instead_of_logging :
  afterPolling
    (traceOf (@setup nat unit unit unit unit sampleRuntime tt
                (sampleTelegram (Fulfilled sampleMe) (Fulfilled [])) tt tt 1%nat
                (mkSettings true) freshWorld)) =
  [SetTimeout 5000; GetMyCommands;
   LoggerInfo [LogText "Telegram commands:"; LogCommands []];
   UnhandledRejection (Err "Telegram: Expected 2 commands, got 0")] /\
  forallb isLoggerCall (commandCheck (Fulfilled [])) = false /\
  [mkBotCommand "start" "Start"; mkBotCommand "help" "Help"] <> myCommands /\
  afterPolling
    (traceOf (@setup nat unit unit unit unit sampleRuntime tt
                (sampleTelegram (Fulfilled sampleMe)
                   (Fulfilled [mkBotCommand "start" "Start"; mkBotCommand "help" "Help"]))
                tt tt 1%nat (mkSettings true) freshWorld)) =
  [SetTimeout 5000; GetMyCommands;
   LoggerInfo [LogText "Telegram commands:";
               LogCommands [mkBotCommand "start" "Start"; mkBotCommand "help" "Help"]]].
Proof.
  split; [reflexivity|]. split; [reflexivity|]. split; [discriminate|reflexivity].
Qed.

(** C3, counterexample: after a complete run on a fresh bot the stack holds
    22 handlers, none of them [removeBridgesIgnoringCommands]; the handler
    installed right after [removeD2TBridges] is the join filter. *)
Lemma per_command_filter_is_not_installed :
  ~ In removeBridgesIgnoringCommands
      (map handler
         (tgMiddleware
            (worldOf (@setup nat unit unit unit unit sampleRuntime tt
                        (sampleTelegram (Fulfilled sampleMe) (Fulfilled myCommands))
                        tt tt 1%nat (mkSettings true) freshWorld)))) /\
  List.length
    (tgMiddleware
       (worldOf (@setup nat unit unit unit unit sampleRuntime tt
                   (sampleTelegram (Fulfilled sampleMe) (Fulfilled myCommands))
                   tt tt 1%nat (mkSettings true) freshWorld))) = 22%nat /\
  nth_error
    (tgMiddleware
       (worldOf (@setup nat unit unit unit unit sampleRuntime tt
                   (sampleTelegram (Fulfilled sampleMe) (Fulfilled myCommands))
                   tt tt 1%nat (mkSettings true) freshWorld))) 8 =
    Some (mkRegistration OnEveryUpdate removeD2TBridges) /\
  nth_error
    (tgMiddleware
       (worldOf (@setup nat unit unit unit unit sampleRuntime tt
                   (sampleTelegram (Fulfilled sampleMe) (Fulfilled myCommands))
                   tt tt 1%nat (mkSettings true) freshWorld))) 9 =
    Some (mkRegistration (OnUpdateTypes ["new_chat_members"])
                         removeBridgesIgnoringJoinMessages).
Proof.
  split; [|split; [|split]]; try reflexivity.
  vm_compute. intuition discriminate.
Qed.

(** C6, failing input: a ["bridgeUpdate"] notification with table 2 while
    [getMe] is pending.  The listener throws; when the ready step then
    runs, the pipeline reads table 1, the one [setup] was called with, and
    table 2 is lost.  The same notification after the ready step replaces
    the table. *)
Lemma bridgeUpdate_before_ready_is_lost :
  settings_emit "bridgeUpdate" 2%nat
    (worldOf (@setup nat unit unit unit unit sampleRuntime tt
                (sampleTelegram Pending Pending) tt tt 1%nat (mkSettings true)
                freshWorld)) =
    inl (TypeError "Cannot set properties of undefined (setting 'bridgeMap')") /\
  pipelineBridgeMap
    (worldOf (@setup nat unit unit unit unit sampleRuntime tt
                (sampleTelegram (Fulfilled sampleMe) Pending) tt tt 1%nat
                (mkSettings true) freshWorld)) = Some 1%nat /\
  option_map pipelineBridgeMap
    (match settings_emit "bridgeUpdate" 2%nat
             (worldOf (@setup nat unit unit unit unit sampleRuntime tt
                         (sampleTelegram (Fulfilled sampleMe) Pending) tt tt 1%nat
                         (mkSettings true) freshWorld)) with
     | inr w => Some w
     | inl _ => None
     end) = Some (Some 2%nat).
Proof.
  split; [reflexivity|]. split; reflexivity.
Qed.
